(** * download_bench.py: a shallow embedding and its checked properties

    The script times four ways of downloading a file, verifies every
    download against an MD5 digest and prints a throughput line.  The
    embedding below follows [download_bench.py] function by function:

    - Python [bytes] are [list byte], [str] is [string], [float] is the
      primitive binary64 [float], [int] is [Z];
    - everything the interpreter can touch (file system, standard output,
      the readings of [time()], the names drawn by [tempfile]) lives in a
      [World] that every operation threads through;
    - an operation either returns a value or raises an exception, in both
      cases together with the world it leaves behind;
    - what the outside decides (the clock, the HTTP server, the external
      tools, the scheduler of the worker thread) is an [Env] of oracles;
    - [hashlib.md5] and [base64.b64encode] are implemented in full, so that
      digests can be evaluated on concrete files. *)

From Stdlib Require Import ZArith Floats Lia.
From Stdlib Require Import Strings.String Strings.Ascii Strings.Byte.
From stdpp Require Import gmap strings list fin_maps.

Local Open Scope Z_scope.

(* ===================================================================== *)
(** ** Python values: [bytes] and [str] *)
(* ===================================================================== *)

Module Bytes.

(** Python compares [bytes] by content. *)
Fixpoint eqb (a b : list byte) : bool :=
  match a, b with
  | [], [] => true
  | x :: a', y :: b' => Byte.eqb x y && eqb a' b'
  | _, _ => false
  end.

Definition of_Z (n : Z) : byte :=
  match Byte.of_N (Z.to_N (n mod 256)) with
  | Some b => b
  | None => x00
  end.

Definition to_Z (b : byte) : Z := Z.of_N (Byte.to_N b).

Definition of_str (s : string) : list byte := list_byte_of_string s.

Definition hexdigit (n : Z) : byte :=
  nth (Z.to_nat n) (of_str "0123456789abcdef") x00.

(** [b in s] for a single byte. *)
Definition contains (c : byte) (s : list byte) : bool :=
  existsb (Byte.eqb c) s.

(** One byte of [repr(bytes)], as CPython's [bytes_repr] writes it. *)
Definition repr_byte (quote c : byte) : list byte :=
  if Byte.eqb c quote || Byte.eqb c "\"%byte then ["\"%byte; c]
  else if Byte.eqb c x09 then of_str "\t"
  else if Byte.eqb c x0a then of_str "\n"
  else if Byte.eqb c x0d then of_str "\r"
  else if (to_Z c <? 32) || (127 <=? to_Z c)
       then ["\"%byte; "x"%byte; hexdigit (to_Z c / 16); hexdigit (to_Z c mod 16)]
  else [c].

(** [repr(b)], which is also [str(b)] and what an f-string interpolates:
    [b'...'], or [b"..."] when the content has a single quote and no
    double quote. *)
Definition repr (s : list byte) : string :=
  let quote :=
    if contains "'"%byte s && negb (contains x22 s) then x22 else "'"%byte in
  string_of_list_byte
    ("b"%byte :: quote :: flat_map (repr_byte quote) s ++ [quote]).

End Bytes.

Module Str.

Definition spaces (n : nat) : string :=
  string_of_list_byte (repeat " "%byte n).

(** Format specification [: <w]: left-aligned in a field of width [w]. *)
Definition ljust (w : nat) (s : string) : string :=
  (s +:+ spaces (w - String.length s))%string.

(** Format specification [: >w]: right-aligned in a field of width [w]. *)
Definition rjust (w : nat) (s : string) : string :=
  (spaces (w - String.length s) +:+ s)%string.

(** [s] occurs in [t]. *)
Definition occurs_in (s t : string) : Prop :=
  exists pre post : string, t = (pre +:+ s +:+ post)%string.

End Str.

(* ===================================================================== *)
(** ** [hashlib.md5]: RFC 1321 with an incremental accumulator *)
(* ===================================================================== *)

Module MD5.

Definition w32 (x : Z) : Z := x mod 2 ^ 32.

Definition rotl (x s : Z) : Z :=
  w32 (Z.lor (Z.shiftl x s) (Z.shiftr (w32 x) (32 - s))).

Definition K : list Z :=
  [ 0xd76aa478; 0xe8c7b756; 0x242070db; 0xc1bdceee;
    0xf57c0faf; 0x4787c62a; 0xa8304613; 0xfd469501;
    0x698098d8; 0x8b44f7af; 0xffff5bb1; 0x895cd7be;
    0x6b901122; 0xfd987193; 0xa679438e; 0x49b40821;
    0xf61e2562; 0xc040b340; 0x265e5a51; 0xe9b6c7aa;
    0xd62f105d; 0x02441453; 0xd8a1e681; 0xe7d3fbc8;
    0x21e1cde6; 0xc33707d6; 0xf4d50d87; 0x455a14ed;
    0xa9e3e905; 0xfcefa3f8; 0x676f02d9; 0x8d2a4c8a;
    0xfffa3942; 0x8771f681; 0x6d9d6122; 0xfde5380c;
    0xa4beea44; 0x4bdecfa9; 0xf6bb4b60; 0xbebfbc70;
    0x289b7ec6; 0xeaa127fa; 0xd4ef3085; 0x04881d05;
    0xd9d4d039; 0xe6db99e5; 0x1fa27cf8; 0xc4ac5665;
    0xf4292244; 0x432aff97; 0xab9423a7; 0xfc93a039;
    0x655b59c3; 0x8f0ccc92; 0xffeff47d; 0x85845dd1;
    0x6fa87e4f; 0xfe2ce6e0; 0xa3014314; 0x4e0811a1;
    0xf7537e82; 0xbd3af235; 0x2ad7d2bb; 0xeb86d391 ].

Definition S : list Z :=
  [ 7; 12; 17; 22; 7; 12; 17; 22; 7; 12; 17; 22; 7; 12; 17; 22;
    5; 9; 14; 20; 5; 9; 14; 20; 5; 9; 14; 20; 5; 9; 14; 20;
    4; 11; 16; 23; 4; 11; 16; 23; 4; 11; 16; 23; 4; 11; 16; 23;
    6; 10; 15; 21; 6; 10; 15; 21; 6; 10; 15; 21; 6; 10; 15; 21 ].

Record state := State { sa : Z; sb : Z; sc : Z; sd : Z }.

Definition init_state : state :=
  State 0x67452301 0xefcdab89 0x98badcfe 0x10325476.

(** Little-endian 32-bit words of a block. *)
Fixpoint words (block : list byte) : list Z :=
  match block with
  | b0 :: b1 :: b2 :: b3 :: rest =>
      (Bytes.to_Z b0 + 2 ^ 8 * Bytes.to_Z b1
       + 2 ^ 16 * Bytes.to_Z b2 + 2 ^ 24 * Bytes.to_Z b3) :: words rest
  | _ => []
  end.

Definition round (M : list Z) (st : state) (i : nat) : state :=
  let '(State a b c d) := st in
  let '(f, g) :=
    match (i / 16)%nat with
    | 0%nat => (Z.lor (Z.land b c) (Z.land (Z.lxor b 0xffffffff) d), i)
    | 1%nat => (Z.lor (Z.land d b) (Z.land (Z.lxor d 0xffffffff) c),
                ((5 * i + 1) mod 16)%nat)
    | 2%nat => (Z.lxor b (Z.lxor c d), ((3 * i + 5) mod 16)%nat)
    | _ => (Z.lxor c (Z.lor b (Z.lxor d 0xffffffff)), ((7 * i) mod 16)%nat)
    end in
  let f' := w32 (f + a + nth i K 0 + nth g M 0) in
  State d (w32 (b + rotl f' (nth i S 0))) b c.

Definition compress (st : state) (block : list byte) : state :=
  let '(State a b c d) := fold_left (round (words block)) (seq 0 64) st in
  State (w32 (sa st + a)) (w32 (sb st + b)) (w32 (sc st + c)) (w32 (sd st + d)).

(** The hash object: chaining value, bytes not yet forming a block, and
    the number of bytes fed so far. *)
Record t := Acc { chain : state; pending : list byte; count : Z }.

(** [hashlib.md5()] *)
Definition new : t := Acc init_state [] 0.

Definition feed (acc : t) (b : byte) : t :=
  let buf := pending acc ++ [b] in
  if (length buf =? 64)%nat
  then Acc (compress (chain acc) buf) [] (count acc + 1)
  else Acc (chain acc) buf (count acc + 1).

(** [m.update(data)] *)
Definition update (acc : t) (data : list byte) : t :=
  fold_left feed data acc.

Definition le_bytes (n : nat) (x : Z) : list byte :=
  map (fun i => Bytes.of_Z (Z.shiftr x (8 * Z.of_nat i))) (seq 0 n).

Definition padding (n : Z) : list byte :=
  x80 :: repeat x00 (Z.to_nat ((55 - n) mod 64)) ++ le_bytes 8 (8 * n).

(** [m.digest()]: 16 bytes. *)
Definition digest (acc : t) : list byte :=
  let '(State a b c d) := chain (update acc (padding (count acc))) in
  le_bytes 4 a ++ le_bytes 4 b ++ le_bytes 4 c ++ le_bytes 4 d.

(** Hashing a whole message at once: [hashlib.md5(data).digest()]. *)
Definition hash (data : list byte) : list byte :=
  digest (update new data).

Definition hexdigest (data : list byte) : string :=
  string_of_list_byte
    (flat_map (fun b => [Bytes.hexdigit (Bytes.to_Z b / 16);
                         Bytes.hexdigit (Bytes.to_Z b mod 16)])
              (hash data)).

End MD5.

(* ===================================================================== *)
(** ** [base64.b64encode] *)
(* ===================================================================== *)

Module Base64.

Definition alphabet : list byte :=
  Bytes.of_str
    "ABCDEFGHIJKLMNOPQRSTUVWXYZabcdefghijklmnopqrstuvwxyz0123456789+/".

Definition sextet (n : Z) : byte := nth (Z.to_nat (n mod 64)) alphabet x00.

Fixpoint b64encode (s : list byte) : list byte :=
  match s with
  | [] => []
  | [a] =>
      let n := Bytes.to_Z a * 2 ^ 16 in
      [sextet (n / 2 ^ 18); sextet (n / 2 ^ 12); "="%byte; "="%byte]
  | [a; b] =>
      let n := Bytes.to_Z a * 2 ^ 16 + Bytes.to_Z b * 2 ^ 8 in
      [sextet (n / 2 ^ 18); sextet (n / 2 ^ 12); sextet (n / 2 ^ 6); "="%byte]
  | a :: b :: c :: rest =>
      let n := Bytes.to_Z a * 2 ^ 16 + Bytes.to_Z b * 2 ^ 8 + Bytes.to_Z c in
      sextet (n / 2 ^ 18) :: sextet (n / 2 ^ 12)
        :: sextet (n / 2 ^ 6) :: sextet n :: b64encode rest
  end.

End Base64.

(* ===================================================================== *)
(** ** The world, exceptions and the monad of Python computations *)
(* ===================================================================== *)

(** The exceptions that can travel through the script. *)
Inductive exn :=
| FileNotFoundError (path : string)
| FileExistsError
| ZeroDivisionError
| CalledProcessError (returncode : Z) (cmd : list string)
| RequestException (reason : string)
| ProtocolError (reason : string)
| CancelledError.

Record World := mkWorld {
  files : gmap string (list byte);   (* the file system: path to content *)
  stdout : list string;              (* the lines printed so far *)
  ticks : nat;                       (* how many times [time()] was read *)
  draws : nat                        (* how many temporary names were drawn *)
}.

Definition set_files (fs : gmap string (list byte)) (w : World) : World :=
  mkWorld fs (stdout w) (ticks w) (draws w).

(** A byte source that can break: [pending] is what it delivers to its
    reader and [broken], when set, is raised by the read that follows the
    last byte delivered. *)
Record stream := mkStream { pending : list byte; broken : option exn }.

(** A response of [requests], as far as the script looks at it.
    [raw n] is what [response.raw] delivers to reads of [n] bytes: the
    body as it comes off the connection, not decoded, and the errors of
    the connection as urllib3 raises them.  [iter_content n] is what
    [response.iter_content(chunk_size=n)] yields: the body decoded
    according to its Content-Encoding, and stream errors wrapped in the
    exceptions of requests.  What either delivers before it breaks may
    depend on the size asked for. *)
Record response := mkResponse {
  raw : N -> stream;
  iter_content : N -> stream
}.

(** What [requests.get(url, stream=True)] does. *)
Inductive reply :=
| Refused (e : exn)
| Response (r : response).

(** What running an external command does: the executable is missing, or
    it runs, leaves the file system as [fs] and exits with [code]. *)
Inductive spawned :=
| NoSuchCommand
| Exited (code : Z) (fs : gmap string (list byte)).

(** Everything decided outside the script.  The oracles may depend on the
    world at the time of the call.  [TMP_MAX] is [tempfile.TMP_MAX], which
    is [os.TMP_MAX] where the platform has one (238328 on Linux) and 10000
    elsewhere.  [format_2f] is Python's ['.2f'] float formatting and
    [naturalsize] is [humanize.naturalsize] (after its [float(value)]
    conversion); neither is code of this repository. *)
Record Env := mkEnv {
  clock : nat -> float;
  temp_name : nat -> string;
  TMP_MAX : nat;
  http_get : World -> string -> reply;
  spawn : World -> list string -> spawned;
  cancel_lag : World -> nat;
  format_2f : float -> string;
  naturalsize : float -> string
}.

Inductive outcome (A : Type) :=
| Return (a : A) (w : World)
| Raise (e : exn) (w : World).
Arguments Return {A} a w.
Arguments Raise {A} e w.

Definition Py (A : Type) : Type := World -> outcome A.

Definition ret {A} (a : A) : Py A := fun w => Return a w.

Definition raise {A} (e : exn) : Py A := fun w => Raise e w.

Definition bind {A B} (c : Py A) (k : A -> Py B) : Py B :=
  fun w =>
    match c w with
    | Return a w' => k a w'
    | Raise e w' => Raise e w'
    end.

(** [try: body finally: final].  An exception raised by [final] replaces
    whatever [body] produced. *)
Definition try_finally {A} (body : Py A) (final : Py unit) : Py A :=
  fun w =>
    match body w with
    | Return a w1 =>
        match final w1 with
        | Return _ w2 => Return a w2
        | Raise e w2 => Raise e w2
        end
    | Raise e w1 =>
        match final w1 with
        | Return _ w2 => Raise e w2
        | Raise e' w2 => Raise e' w2
        end
    end.

Declare Scope py_scope.
Delimit Scope py_scope with py.
Notation "x <- c ;; k" := (bind c (fun x => k))
  (at level 100, c at next level, right associativity) : py_scope.
Notation "c ;; k" := (bind c (fun _ => k))
  (at level 100, right associativity) : py_scope.

(** The world an outcome leaves behind. *)
Definition world_of {A} (o : outcome A) : World :=
  match o with
  | Return _ w => w
  | Raise _ w => w
  end.

Definition returns {A} (o : outcome A) : bool :=
  match o with
  | Return _ _ => true
  | Raise _ _ => false
  end.

(* ===================================================================== *)
(** ** Built-ins and library calls used by the script *)
(* ===================================================================== *)

(** [fp.read(n)] on what is left of a file or stream: the block read and
    the remainder.  At most [n] bytes, and empty only at the end. *)
Fixpoint take_block (n : N) (s : list byte) : list byte * list byte :=
  match s with
  | [] => ([], [])
  | b :: s' =>
      if (n =? 0)%N then ([], s)
      else let '(blk, rest) := take_block (N.pred n) s' in (b :: blk, rest)
  end.

(** The blocks produced by calling [read(n)] until it returns [b''], as
    [iter(lambda: fp.read(n), b'')] and the loop of [copyfileobj] do.
    Every round removes at least one byte, so [fuel] rounds are enough
    for [fuel] bytes. *)
Fixpoint blocks_upto (fuel : nat) (n : N) (s : list byte) : list (list byte) :=
  match fuel with
  | O => []
  | Datatypes.S fuel' =>
      match take_block n s with
      | ([], _) => []
      | (blk, rest) => blk :: blocks_upto fuel' n rest
      end
  end.

Definition read_blocks (n : N) (s : list byte) : list (list byte) :=
  blocks_upto (Datatypes.S (length s)) n s.

(** [float(n)] for an [int]: the nearest binary64, ties to even.  (Python
    raises [OverflowError] from 2^1024 on, a length no file has.) *)
Definition float_of_int (n : Z) : float :=
  SF2Prim (binary_normalize prec emax n 0 false).

(** [n / x] with [n] an [int] and [x] a [float]. *)
Definition truediv (n : Z) (x : float) : Py float :=
  if (x =? 0)%float then raise ZeroDivisionError
  else ret (float_of_int n / x)%float.

(** [print(line)] *)
Definition print (line : string) : Py unit :=
  fun w => Return tt (mkWorld (files w) (stdout w ++ [line]) (ticks w) (draws w)).

(** [open(fname, 'rb')] followed by reading: the content of the file. *)
Definition open_rb (fname : string) : Py (list byte) :=
  fun w =>
    match files w !! fname with
    | Some content => Return content w
    | None => Raise (FileNotFoundError fname) w
    end.

(** [open(fname, 'wb')]: the file is created or truncated. *)
Definition open_wb (fname : string) : Py unit :=
  fun w => Return tt (set_files (<[fname := []]> (files w)) w).

(** [fp.write(chunk)] on a file opened by [open_wb]. *)
Definition write (fname : string) (chunk : list byte) : Py unit :=
  fun w =>
    Return tt
      (set_files (<[fname := default [] (files w !! fname) ++ chunk]> (files w)) w).

(** [os.unlink(path)] *)
Definition unlink (path : string) : Py unit :=
  fun w =>
    match files w !! path with
    | Some _ => Return tt (set_files (delete path (files w)) w)
    | None => Raise (FileNotFoundError path) w
    end.

(** [for x in xs: body(x)] *)
Fixpoint for_each {A} (xs : list A) (body : A -> Py unit) : Py unit :=
  match xs with
  | [] => ret tt
  | x :: xs' => (body x ;; for_each xs' body)%py
  end.

(** [list(map(fn, xs))] *)
Fixpoint list_map {A B} (fn : A -> Py B) (xs : list A) : Py (list B) :=
  match xs with
  | [] => ret []
  | x :: xs' => (b <- fn x ;; bs <- list_map fn xs' ;; ret (b :: bs))%py
  end.

(** [itertools.product(xs, ys)]: the tuples [(x, y) for x in xs for y in ys]. *)
Definition product {A B} (xs : list A) (ys : list B) : list (A * B) :=
  flat_map (fun x => map (fun y => (x, y)) ys) xs.

Record FileDesc := mkFileDesc {
  fd_name : string;
  fd_url : string;
  fd_md5 : list byte;
  fd_size : string
}.

(** A Python function of [(url, fname)], with the [__name__] it carries. *)
Record function (R : Type) := mkFunction {
  __name__ : string;
  call : string -> string -> Py R
}.
Arguments mkFunction {R} _ _.
Arguments __name__ {R} _.
Arguments call {R} _ _ _.

(** The state of a submitted work item once the pool is shut down. *)
Inductive future (B : Type) :=
| Finished (b : B)
| Failed (e : exn)
| Cancelled.
Arguments Finished {B} b.
Arguments Failed {B} e.
Arguments Cancelled {B}.

Section Script.

Variable env : Env.

(** [time()] *)
Definition time : Py float :=
  fun w =>
    Return (clock env (ticks w))
           (mkWorld (files w) (stdout w) (Datatypes.S (ticks w)) (draws w)).

(** The loop of [tempfile._mkstemp_inner]: draw names until one is not
    taken, create that file empty; give up after [attempts] draws. *)
Fixpoint mkstemp (attempts : nat) : Py string :=
  fun w =>
    match attempts with
    | O => Raise FileExistsError w
    | Datatypes.S attempts' =>
        let name := temp_name env (draws w) in
        let w' := mkWorld (files w) (stdout w) (ticks w) (Datatypes.S (draws w)) in
        match files w !! name with
        | None => Return name (set_files (<[name := []]> (files w)) w')
        | Some _ => mkstemp attempts' w'
        end
    end.

(** [fp = tempfile.NamedTemporaryFile(delete=False); fp.close()], giving
    [fp.name]. *)
Definition NamedTemporaryFile : Py string := mkstemp (TMP_MAX env).

(** [requests.get(url, stream=True)] *)
Definition requests_get (url : string) : Py response :=
  fun w =>
    match http_get env w url with
    | Refused e => Raise e w
    | Response r => Return r w
    end.

(** Take from [source] one block of at most [n] bytes after the other and
    write each to [fname], as the loop of [shutil.copyfileobj] and the
    [for] loop over [iter_content] do; a broken source raises after the
    last block it delivered is written. *)
Definition copy_blocks (n : N) (source : stream) (fname : string) : Py unit :=
  (for_each (read_blocks n (pending source)) (write fname) ;;
   match broken source with
   | Some e => raise e
   | None => ret tt
   end)%py.

(** [subprocess.check_call(cmd)] *)
Definition check_call (cmd : list string) : Py Z :=
  fun w =>
    match spawn env w cmd with
    | NoSuchCommand => Raise (FileNotFoundError (hd EmptyString cmd)) w
    | Exited code fs =>
        if code =? 0 then Return 0 (set_files fs w)
        else Raise (CalledProcessError code cmd) (set_files fs w)
    end.

(* ------------------------------------------------------------------- *)
(** *** The thread pool *)

(** The single worker thread takes the queued items in submission order.
    Nothing is cancelled while every item succeeds ([grace = None]).
    Once an item has failed, the main thread will re-raise its exception
    and cancel what is still queued; [grace = Some k] says that the
    worker picks up [k] more items before that cancellation lands.  The
    exit of the [with] block waits for the worker. *)
Fixpoint worker {A B} (fn : A -> Py B) (queue : list A) (grace : option nat)
    (w : World) : list (future B) * World :=
  match queue with
  | [] => ([], w)
  | args :: queue' =>
      match grace with
      | Some O => (map (fun _ => Cancelled) queue, w)
      | _ =>
          match fn args w with
          | Return b w' =>
              let '(fs, w'') := worker fn queue' (Nat.pred <$> grace) w' in
              (Finished b :: fs, w'')
          | Raise e w' =>
              let grace' :=
                match grace with
                | None => Some (cancel_lag env w')
                | Some k => Some (Nat.pred k)
                end in
              let '(fs, w'') := worker fn queue' grace' w' in
              (Failed e :: fs, w'')
          end
      end
  end.

(** The iterator returned by [executor.map], consumed by [list]:
    results in submission order, the first exception re-raised. *)
Fixpoint results {B} (fs : list (future B)) : exn + list B :=
  match fs with
  | [] => inr []
  | Finished b :: fs' =>
      match results fs' with
      | inr bs => inr (b :: bs)
      | inl e => inl e
      end
  | Failed e :: _ => inl e
  | Cancelled :: _ => inl CancelledError
  end.

(** [with ThreadPoolExecutor(max_workers=1) as executor:
       list(executor.map(fn, tasks))] *)
Definition executor_map {A B} (fn : A -> Py B) (tasks : list A) : Py (list B) :=
  fun w =>
    let '(fs, w') := worker fn tasks None w in
    match results fs with
    | inr bs => Return bs w'
    | inl e => Raise e w'
    end.

(* ------------------------------------------------------------------- *)
(** *** download_bench.py *)

Definition FILES : list FileDesc :=
  [ mkFileDesc
      "LC80440342016259LGN00_BQA.TIF"
      "https://storage.googleapis.com/gcp-public-data-landsat/LC08/PRE/044/034/LC80440342016259LGN00/LC80440342016259LGN00_BQA.TIF"
      (Bytes.of_str "zqigvl5Envmi/GLc8yH51A==")
      "3.2MB";
    mkFileDesc
      "LC80440342016259LGN00_B1.TIF"
      "https://storage.googleapis.com/gcp-public-data-landsat/LC08/PRE/044/034/LC80440342016259LGN00/LC80440342016259LGN00_B1.TIF"
      (Bytes.of_str "835L6B5frB0zCB6s22r2Sw==")
      "71.26MB";
    mkFileDesc
      "LC80440342016259LGN00_B8.TIF"
      "https://storage.googleapis.com/gcp-public-data-landsat/LC08/PRE/044/034/LC80440342016259LGN00/LC80440342016259LGN00_B8.TIF"
      (Bytes.of_str "y795LrUzBwk2tL6PM01cEA==")
      "304.12MB" ].

(** The [wrapper] closure defined inside [bench]. *)
Definition wrapper {R} (download_func : function R) (url fname : string) : Py float :=
  (start <- time ;;
   call download_func url fname ;;
   end_ <- time ;;
   ret (end_ - start)%float)%py.

(** The decorator [bench], with the module-level list it appends to passed
    in and out: the decorated function (which [@wraps] gives the name of
    [download_func]) and the list after [append]. *)
Definition bench {R} (DOWNLOAD_FUNCTIONS : list (function float))
    (download_func : function R) : function float * list (function float) :=
  let wrapped := mkFunction (__name__ download_func) (wrapper download_func) in
  (wrapped, DOWNLOAD_FUNCTIONS ++ [wrapped]).

Definition calc_md5 (fname : string) : Py (list byte) :=
  (content <- open_rb fname ;;
   let md5hash :=
     fold_left MD5.update (read_blocks (1024 * 1024) content) MD5.new in
   ret (Base64.b64encode (MD5.digest md5hash)))%py.

Definition file_size (fname : string) : Py Z :=
  (content <- open_rb fname ;;
   ret (Z.of_nat (length content)))%py.

Definition mismatch_line (func_name : string) (file_desc : FileDesc)
    (md5 : list byte) : string :=
  ("Error in benchmark of " +:+ func_name +:+ " using "
   +:+ "file desc " +:+ fd_name file_desc +:+ " (" +:+ fd_size file_desc +:+ "): "
   +:+ "MD5 mismatch (" +:+ Bytes.repr md5 +:+ " != "
   +:+ Bytes.repr (fd_md5 file_desc) +:+ ")")%string.

Definition throughput_line (func_name : string) (total_time : float)
    (total_bytes : Z) (speed : float) : string :=
  (Str.ljust 22 func_name
   +:+ Str.rjust 6 (format_2f env total_time) +:+ " sec"
   +:+ Str.rjust 10 (naturalsize env (float_of_int total_bytes))
   +:+ Str.rjust 10 (naturalsize env speed) +:+ "/s")%string.

(** The body of the [try] block of [bench_download]. *)
Definition bench_download_body (file_desc : FileDesc)
    (download_func : function float) (fp_name : string) : Py unit :=
  (total_time <- call download_func (fd_url file_desc) fp_name ;;
   md5 <- calc_md5 fp_name ;;
   if negb (Bytes.eqb md5 (fd_md5 file_desc))
   then print (mismatch_line (__name__ download_func) file_desc md5)
   else
     total_bytes <- file_size fp_name ;;
     speed <- truediv total_bytes total_time ;;
     print (throughput_line (__name__ download_func) total_time total_bytes speed))%py.

Definition bench_download (file_desc : FileDesc)
    (download_func : function float) : Py unit :=
  (fp_name <- NamedTemporaryFile ;;
   try_finally (bench_download_body file_desc download_func fp_name)
               (unlink fp_name))%py.

(** The four download functions as written, before decoration. *)
Definition requests_raw_shutil_def : function unit :=
  mkFunction "requests_raw_shutil" (fun url fname =>
    response <- requests_get url ;;
    open_wb fname ;;
    copy_blocks (16 * 1024) (raw response (16 * 1024)) fname)%py.

Definition requests_chunks_def : function unit :=
  mkFunction "requests_chunks" (fun url fname =>
    response <- requests_get url ;;
    open_wb fname ;;
    copy_blocks (128 * 1024) (iter_content response (128 * 1024)) fname)%py.

Definition wget_subprocess_def : function unit :=
  mkFunction "wget_subprocess" (fun url fname =>
    check_call ["wget"; "-q"; "-O"; fname; url]%string ;;
    ret tt)%py.

Definition curl_subprocess_def : function unit :=
  mkFunction "curl_subprocess" (fun url fname =>
    check_call ["curl"; "-s"; "-o"; fname; url]%string ;;
    ret tt)%py.

(** Executing the module top to bottom: [DOWNLOAD_FUNCTIONS = []], then
    one [@bench] per definition.  The result is the four module-level
    names and the final list. *)
Definition module_init :
    function float * function float * function float * function float
    * list (function float) :=
  let DOWNLOAD_FUNCTIONS := [] in
  let '(requests_raw_shutil, DOWNLOAD_FUNCTIONS) :=
    bench DOWNLOAD_FUNCTIONS requests_raw_shutil_def in
  let '(requests_chunks, DOWNLOAD_FUNCTIONS) :=
    bench DOWNLOAD_FUNCTIONS requests_chunks_def in
  let '(wget_subprocess, DOWNLOAD_FUNCTIONS) :=
    bench DOWNLOAD_FUNCTIONS wget_subprocess_def in
  let '(curl_subprocess, DOWNLOAD_FUNCTIONS) :=
    bench DOWNLOAD_FUNCTIONS curl_subprocess_def in
  (requests_raw_shutil, requests_chunks, wget_subprocess, curl_subprocess,
   DOWNLOAD_FUNCTIONS).

Definition requests_raw_shutil : function float := module_init.1.1.1.1.
Definition requests_chunks : function float := module_init.1.1.1.2.
Definition wget_subprocess : function float := module_init.1.1.2.
Definition curl_subprocess : function float := module_init.1.2.
Definition DOWNLOAD_FUNCTIONS : list (function float) := module_init.2.

Definition header_main : string :=
  "=== Benchmark download in main thread ===".
Definition header_pool : string :=
  "=== Benchmark download in a single worker thread pool ===".

(** The body of [run_download_bench], with the two module-level lists it
    reads as parameters. *)
Definition run_download_bench_on (files_ : list FileDesc)
    (funcs : list (function float)) : Py unit :=
  (print header_main ;;
   list_map (fun args => bench_download args.1 args.2) (product files_ funcs) ;;
   print header_pool ;;
   executor_map (fun args => bench_download args.1 args.2) (product files_ funcs) ;;
   ret tt)%py.

Definition run_download_bench : Py unit :=
  run_download_bench_on FILES DOWNLOAD_FUNCTIONS.

End Script.

(* ===================================================================== *)
(** ** Vocabulary of the statements *)
(* ===================================================================== *)

(** The digest the script computes for a file with this content, had it
    hashed the content in one piece. *)
Definition digest_of (content : list byte) : list byte :=
  Base64.b64encode (MD5.hash content).

(** The world after one more line on standard output. *)
Definition printed (line : string) (w : World) : World :=
  mkWorld (files w) (stdout w ++ [line]) (ticks w) (draws w).

(** The world after a file is removed. *)
Definition removed (path : string) (w : World) : World :=
  set_files (delete path (files w)) w.

(** The world after one more reading of the clock. *)
Definition ticked (w : World) : World :=
  mkWorld (files w) (stdout w) (Datatypes.S (ticks w)) (draws w).

(** The operation both passes apply to a pair of the cross product. *)
Definition bench_pair (env : Env) (args : FileDesc * function float) : Py unit :=
  bench_download env args.1 args.2.



(** How an iteration ends when the digest of the downloaded file is the
    expected one: with the throughput line for [total_time], or, when
    [total_time] is zero, with [ZeroDivisionError] and no line.  [w2] is
    the world the download left and [name] the temporary file. *)
Definition ends_as_match (env : Env) (download_func : function float)
    (total_time : float) (content : list byte) (name : string) (w2 : World)
    (o : outcome unit) : Prop :=
  if (total_time =? 0)%float
  then o = Raise ZeroDivisionError (removed name w2)
  else o = Return tt (removed name
             (printed (throughput_line env (__name__ download_func) total_time
                         (Z.of_nat (length content))
                         (float_of_int (Z.of_nat (length content)) / total_time)%float)
                      w2)).

(** How an iteration ends when the digest differs: with the mismatch line. *)
Definition ends_as_mismatch (file_desc : FileDesc) (download_func : function float)
    (content : list byte) (name : string) (w2 : World) (o : outcome unit) : Prop :=
  o = Return tt (removed name
        (printed (mismatch_line (__name__ download_func) file_desc (digest_of content))
                 w2)).

(* ===================================================================== *)
(** ** Concrete files, environments and worlds *)
(* ===================================================================== *)

Module Demo.

(** The 12-byte fixture and its descriptor. *)
Definition hello : list byte := Bytes.of_str "hello world!".

Definition fd_hello : FileDesc :=
  mkFileDesc "hello.txt" "http://fixture.test/hello.txt"
             (Bytes.of_str "/D/5joxqDTCH1RXARz+Gdw==") "12 Bytes".

Definition tmp (n : nat) : string :=
  ("/tmp/tmp" +:+ String (ascii_of_nat (97 + n mod 26)) EmptyString)%string.

(** A response that delivers [body] whole, with no Content-Encoding: the
    decoded content is the body as it came. *)
Definition plain (body : list byte) : response :=
  mkResponse (fun _ => mkStream body None) (fun _ => mkStream body None).

(** A server that delivers the fixture at every URL. *)
Definition serve_hello (w : World) (url : string) : reply :=
  Response (plain hello).

(** A server that cannot be reached. *)
Definition unreachable (w : World) (url : string) : reply :=
  Refused (RequestException "connection refused").

(** A server that is out of reach when the clock has been read exactly
    [n] times, and delivers the fixture otherwise. *)
Definition outage (n : nat) (w : World) (url : string) : reply :=
  if (ticks w =? n)%nat then unreachable w url else serve_hello w url.

(** Tools that write the fixture to the path given as fourth argument. *)
Definition fetch_hello (w : World) (cmd : list string) : spawned :=
  match cmd with
  | [_; _; _; fname; _] => Exited 0 (<[fname := hello]> (files w))
  | _ => NoSuchCommand
  end.

(** Tools that cannot resolve the host: [wget] exits with 4, [curl] with
    6, and the destination is left as it was. *)
Definition cannot_resolve (w : World) (cmd : list string) : spawned :=
  match cmd with
  | tool :: _ => Exited (if String.eqb tool "wget" then 4 else 6) (files w)
  | [] => NoSuchCommand
  end.

Definition make_env (clock : nat -> float) (http : World -> string -> reply)
    (tools : World -> list string -> spawned) (lag : nat) : Env :=
  mkEnv clock tmp (62 * 62 * 62) http tools (fun _ => lag)
        (fun _ => "_.__"%string) (fun _ => "_ B"%string).

(** Two seconds pass between consecutive clock readings. *)
Definition steady (n : nat) : float := float_of_int (1541030400 + 2 * Z.of_nat n).

(** The clock does not move. *)
Definition frozen (n : nat) : float := float_of_int 1541030400.

Definition env_ok : Env := make_env steady serve_hello fetch_hello 0.
Definition env_frozen : Env := make_env frozen serve_hello fetch_hello 0.
Definition env_offline : Env := make_env steady unreachable fetch_hello 0.
Definition env_outage : Env := make_env steady (outage 25) fetch_hello 1.
Definition env_no_dns : Env := make_env steady serve_hello cannot_resolve 0.

(** An empty disk, nothing printed, no clock reading or name drawn yet. *)
Definition w0 : World := mkWorld ∅ [] 0 0.

(** A disk that holds the fixture. *)
Definition w_hello : World := mkWorld {[ "/data/hello.txt"%string := hello ]} [] 0 0.

End Demo.

(* ===================================================================== *)
(** ** Further vocabulary and environments *)
(* ===================================================================== *)

(** A function that never writes to standard output. *)
Definition quiet (download_func : function float) : Prop :=
  forall (url fname : string) (w : World),
    stdout (world_of (call download_func url fname w)) = stdout w.

(** [line] is one of the two lines [bench_download] can print for a pair. *)
Definition line_of (env : Env) (args : FileDesc * function float)
    (line : string) : Prop :=
  (exists md5 : list byte, line = mismatch_line (__name__ args.2) args.1 md5)
  \/ (exists (total_time : float) (total_bytes : Z) (speed : float),
        line = throughput_line env (__name__ args.2) total_time total_bytes speed).

(** The world a [requests]-based download leaves when the response
    delivered [content]: the destination holds exactly [content], and the
    clock has been read [readings] more times. *)
Definition downloaded (fname : string) (content : list byte) (readings : nat)
    (w : World) : World :=
  mkWorld (<[fname := content]> (files w)) (stdout w) (readings + ticks w) (draws w).

(** The bytes a base64 text is made of: the alphabet and the padding
    sign. *)
Definition base64_sign (c : byte) : bool :=
  Bytes.contains c (Base64.alphabet ++ ["="%byte]).

Module Cases.

(** A server whose connection is reset while the body arrives.  Reads of
    16 KiB had received five bytes by then, and urllib3 raises its
    [ProtocolError]; the chunks of 128 KiB had received nothing, and
    requests wraps the error. *)
Definition cut_off (w : World) (url : string) : reply :=
  Response (mkResponse
    (fun _ => mkStream (Bytes.of_str "hello") (Some (ProtocolError "connection reset")))
    (fun _ => mkStream [] (Some (RequestException "connection reset")))).




(** A machine without the tools. *)
Definition no_tools (w : World) (cmd : list string) : spawned := NoSuchCommand.

(** Tools that exit with status 0 after removing their destination. *)
Definition remove_destination (w : World) (cmd : list string) : spawned :=
  match cmd with
  | [_; _; _; fname; _] => Exited 0 (delete fname (files w))
  | _ => NoSuchCommand
  end.

Definition env_cut_off : Env :=
  Demo.make_env Demo.steady cut_off Demo.fetch_hello 0.
Definition env_no_tools : Env :=
  Demo.make_env Demo.steady Demo.serve_hello no_tools 0.
Definition env_removing : Env :=
  Demo.make_env Demo.steady Demo.serve_hello remove_destination 0.

(** A temporary directory in which every name drawn is [/tmp/taken], on
    Linux. *)
Definition env_one_name : Env :=
  mkEnv Demo.steady (fun _ => "/tmp/taken"%string) (62 * 62 * 62)
        Demo.serve_hello Demo.fetch_hello
        (fun _ => 0%nat) (fun _ => "_.__"%string) (fun _ => "_ B"%string).

(** A temporary directory whose first two names drawn are taken. *)
Definition env_third_name : Env :=
  mkEnv Demo.steady
        (fun n => if (n <? 2)%nat then "/tmp/taken"%string else Demo.tmp n)
        (62 * 62 * 62) Demo.serve_hello Demo.fetch_hello
        (fun _ => 0%nat) (fun _ => "_.__"%string) (fun _ => "_ B"%string).

(** A disk with a stale file of an earlier run and a file named as the
    temporary directory would name its next one. *)
Definition w_taken : World :=
  mkWorld {[ "/tmp/taken"%string := Bytes.of_str "old";
             "/data/keep.txt"%string := Bytes.of_str "keep" ]} [] 0 0.

(** A clock that is set back by two seconds between consecutive readings. *)
Definition backwards (n : nat) : float :=
  float_of_int (1541030400 - 2 * Z.of_nat n).

Definition env_backwards : Env :=
  Demo.make_env backwards Demo.serve_hello Demo.fetch_hello 0.

(** What ['.2f'] formatting and [humanize.naturalsize] give at the values
    the examples use (a placeholder elsewhere). *)
Definition show_2f (x : float) : string :=
  if (x =? 2)%float then "2.00"%string
  else if (x =? -2)%float then "-2.00"%string
  else "?.??"%string.

Definition show_size (x : float) : string :=
  if (x =? 12)%float then "12 Bytes"%string
  else if (x =? 6)%float then "6 Bytes"%string
  else if (x =? -6)%float then "-6 Bytes"%string
  else "? Bytes"%string.

(** The environment of [Demo.env_ok] with these formatters. *)
Definition env_readable : Env :=
  mkEnv Demo.steady Demo.tmp (62 * 62 * 62) Demo.serve_hello Demo.fetch_hello
        (fun _ => 0%nat) show_2f show_size.

(** The same under the clock that is set back. *)
Definition env_readable_backwards : Env :=
  mkEnv backwards Demo.tmp (62 * 62 * 62) Demo.serve_hello Demo.fetch_hello
        (fun _ => 0%nat) show_2f show_size.

(** A descriptor whose expected digest is a hexadecimal MD5, which the
    script does not compute. *)
Definition fd_hex : FileDesc :=
  mkFileDesc "hello.txt" "http://fixture.test/hello.txt"
             (Bytes.of_str "fc3ff98e8c6a0d3087d515c0473f8677") "12 Bytes".

End Cases.

(* ===================================================================== *)
(** ** Properties of the built-ins *)
(* ===================================================================== *)

(** The test suite of RFC 1321 and test vectors of RFC 4648. *)
Example md5_rfc1321_empty :
  MD5.hexdigest [] = "d41d8cd98f00b204e9800998ecf8427e"%string.
Proof. vm_compute. reflexivity. Qed.

Example md5_rfc1321_abc :
  MD5.hexdigest (Bytes.of_str "abc") = "900150983cd24fb0d6963f7d28e17f72"%string.
Proof. vm_compute. reflexivity. Qed.

Example md5_rfc1321_message_digest :
  MD5.hexdigest (Bytes.of_str "message digest")
  = "f96b697d7cb7938d525a2f31aaf161d0"%string.
Proof. vm_compute. reflexivity. Qed.

Example md5_rfc1321_alphanumeric :
  MD5.hexdigest
    (Bytes.of_str "ABCDEFGHIJKLMNOPQRSTUVWXYZabcdefghijklmnopqrstuvwxyz0123456789")
  = "d174ab98d277d9f5a5611c2c9f419d9f"%string.
Proof. vm_compute. reflexivity. Qed.

Example md5_rfc1321_digits :
  MD5.hexdigest (concat (repeat (Bytes.of_str "1234567890") 8))
  = "57edf4a22be3c955ac49da2e2107b67a"%string.
Proof. vm_compute. reflexivity. Qed.

Example b64encode_rfc4648 :
  map Base64.b64encode (map Bytes.of_str ["f"; "fo"; "foo"; "foob"; "foobar"]%string)
  = map Bytes.of_str ["Zg=="; "Zm8="; "Zm9v"; "Zm9vYg=="; "Zm9vYmFy"]%string.
Proof. vm_compute. reflexivity. Qed.

(** The digest of the 12-byte fixture, as the script would print it. *)
Example repr_digest_of_fixture :
  Bytes.repr (Base64.b64encode (MD5.hash (Bytes.of_str "hello world!")))
  = "b'/D/5joxqDTCH1RXARz+Gdw=='"%string.
Proof. vm_compute. reflexivity. Qed.

(** Reading the fixture five bytes at a time. *)
Example read_blocks_by_five :
  read_blocks 5 (Bytes.of_str "hello world!")
  = map Bytes.of_str ["hello"; " worl"; "d!"]%string.
Proof. vm_compute. reflexivity. Qed.

Lemma bytes_eqb_eq (a b : list byte) : Bytes.eqb a b = true <-> a = b.
Proof.
  revert b; induction a as [|x a IH]; intros [|y b]; simpl; try easy.
  rewrite andb_true_iff, IH. split.
  - intros [Hxy ->]. apply Byte.byte_dec_bl in Hxy. now subst.
  - intros [= -> ->]. split; [now apply Byte.byte_dec_lb | reflexivity].
Qed.

Lemma bytes_eqb_neq (a b : list byte) : Bytes.eqb a b = false <-> a <> b.
Proof.
  rewrite <- bytes_eqb_eq. destruct (Bytes.eqb a b); split; congruence.
Qed.

(** A read returns a prefix of what is left and leaves the rest. *)
Lemma take_block_app (n : N) (s blk rest : list byte) :
  take_block n s = (blk, rest) -> s = blk ++ rest.
Proof.
  revert n blk rest; induction s as [|b s IH]; intros n blk rest; simpl.
  - now intros [= <- <-].
  - destruct (n =? 0)%N; [now intros [= <- <-]|].
    destruct (take_block (N.pred n) s) as [blk' rest'] eqn:E.
    intros [= <- <-]. simpl. f_equal. eauto.
Qed.

(** A read never returns more than was asked for. *)
Lemma take_block_length (n : N) (s blk rest : list byte) :
  take_block n s = (blk, rest) -> (N.of_nat (length blk) <= n)%N.
Proof.
  revert n blk rest; induction s as [|b s IH]; intros n blk rest; simpl.
  - intros [= <- <-]. simpl. lia.
  - destruct (n =? 0)%N eqn:En; [intros [= <- <-]; simpl; lia|].
    destruct (take_block (N.pred n) s) as [blk' rest'] eqn:E.
    intros [= <- <-]. apply IH in E. apply N.eqb_neq in En.
    rewrite length_cons. lia.
Qed.

(** A read that stops before the end of the data is full. *)
Lemma take_block_full (n : N) (s blk rest : list byte) :
  take_block n s = (blk, rest) -> rest <> [] -> N.of_nat (length blk) = n.
Proof.
  revert n blk rest; induction s as [|b s IH]; intros n blk rest; simpl.
  - now intros [= <- <-].
  - destruct (n =? 0)%N eqn:En.
    + intros [= <- <-] _. apply N.eqb_eq in En. now subst.
    + destruct (take_block (N.pred n) s) as [blk' rest'] eqn:E.
      intros [= <- <-] Hr. apply (IH _ _ _ E) in Hr. apply N.eqb_neq in En.
      rewrite length_cons. lia.
Qed.

(** The blocks read from a file are its content, cut into pieces. *)
Lemma blocks_upto_concat (n : N) (fuel : nat) (s : list byte) :
  (0 < n)%N -> (length s < fuel)%nat -> concat (blocks_upto fuel n s) = s.
Proof.
  intros Hn; revert s; induction fuel as [|fuel IH]; intros s Hlen; [lia|].
  simpl. destruct (take_block n s) as [blk rest] eqn:E.
  pose proof (take_block_app _ _ _ _ E) as Happ.
  destruct blk as [|b blk].
  - destruct s as [|c s]; [reflexivity|]. simpl in E.
    destruct (n =? 0)%N eqn:En; [apply N.eqb_eq in En; lia|].
    destruct (take_block (N.pred n) s); discriminate.
  - simpl. rewrite IH; [now subst|].
    subst s. rewrite length_app, length_cons in Hlen. lia.
Qed.

Lemma read_blocks_concat (n : N) (s : list byte) :
  (0 < n)%N -> concat (read_blocks n s) = s.
Proof. intros Hn. apply blocks_upto_concat; [assumption | lia]. Qed.

(** No block is empty and none is longer than the block size. *)
Lemma blocks_upto_bounds (n : N) (fuel : nat) (s : list byte) :
  Forall (fun blk => blk <> [] /\ (N.of_nat (length blk) <= n)%N)
         (blocks_upto fuel n s).
Proof.
  revert s; induction fuel as [|fuel IH]; intros s; simpl; [constructor|].
  destruct (take_block n s) as [blk rest] eqn:E.
  destruct blk as [|b blk]; constructor; [|apply IH].
  split; [discriminate | eapply take_block_length; eassumption].
Qed.

(** Every block but the last has exactly the block size. *)
Lemma blocks_upto_full (n : N) (fuel : nat) (s : list byte)
    (pre : list (list byte)) (blk nxt : list byte) (post : list (list byte)) :
  blocks_upto fuel n s = pre ++ blk :: nxt :: post -> N.of_nat (length blk) = n.
Proof.
  revert s pre; induction fuel as [|fuel IH]; intros s pre; simpl.
  - now destruct pre.
  - destruct (take_block n s) as [b0 rest] eqn:E.
    destruct b0 as [|c b0]; [now destruct pre|].
    destruct pre as [|p pre]; simpl.
    + intros [= <- Hnext]. eapply take_block_full; [eassumption|].
      intros ->. destruct fuel; discriminate.
    + intros [= _ Hrest]. eauto.
Qed.

(** Feeding a hash object piece by piece is feeding it the whole. *)
Lemma md5_update_app (acc : MD5.t) (a b : list byte) :
  MD5.update (MD5.update acc a) b = MD5.update acc (a ++ b).
Proof. unfold MD5.update. now rewrite fold_left_app. Qed.

Lemma md5_update_concat (chunks : list (list byte)) (acc : MD5.t) :
  fold_left MD5.update chunks acc = MD5.update acc (concat chunks).
Proof.
  revert acc; induction chunks as [|c chunks IH]; intros acc; simpl.
  - reflexivity.
  - now rewrite IH, md5_update_app.
Qed.

(** Whatever the block size, hashing block by block is hashing the whole. *)
Lemma md5_blockwise (n : N) (s : list byte) (acc : MD5.t) :
  (0 < n)%N -> fold_left MD5.update (read_blocks n s) acc = MD5.update acc s.
Proof. intros Hn. now rewrite md5_update_concat, read_blocks_concat. Qed.

Example md5_blockwise_by_five :
  MD5.digest (fold_left MD5.update (read_blocks 5 (Bytes.of_str "hello world!")) MD5.new)
  = MD5.hash (Bytes.of_str "hello world!").
Proof. vm_compute. reflexivity. Qed.

(** A digest is 128 bits long. *)
Lemma md5_digest_length (acc : MD5.t) : length (MD5.digest acc) = 16%nat.
Proof.
  unfold MD5.digest. destruct (MD5.chain _) as [a b c d]. reflexivity.
Qed.

Lemma string_app_assoc (a b c : string) :
  ((a +:+ b) +:+ c = a +:+ (b +:+ c))%string.
Proof.
  induction a as [|x a IH]; [reflexivity|].
  change (String x ((a +:+ b) +:+ c) = String x (a +:+ (b +:+ c)))%string.
  now f_equal.
Qed.

Lemma occurs_in_head (s post : string) : Str.occurs_in s (s +:+ post).
Proof. now exists EmptyString, post. Qed.

Lemma occurs_in_tail (s pre t : string) :
  Str.occurs_in s t -> Str.occurs_in s (pre +:+ t).
Proof.
  intros (p & q & ->). exists (pre +:+ p)%string, q.
  now rewrite string_app_assoc.
Qed.


(** A strictly positive float is not zero. *)
Lemma float_pos_nonzero (x : float) :
  (0 <? x)%float = true -> (x =? 0)%float = false.
Proof.
  rewrite FloatAxioms.ltb_spec, FloatAxioms.eqb_spec.
  change (Prim2SF 0) with (S754_zero false).
  destruct (Prim2SF x) as [s|s| |s m e]; try destruct s; cbn; congruence.
Qed.

(** A strictly negative float is not zero. *)
Lemma float_neg_nonzero (x : float) :
  (x <? 0)%float = true -> (x =? 0)%float = false.
Proof.
  rewrite FloatAxioms.ltb_spec, FloatAxioms.eqb_spec.
  change (Prim2SF 0) with (S754_zero false).
  destruct (Prim2SF x) as [s|s| |s m e]; try destruct s; cbn; congruence.
Qed.

(** The division raises exactly when the divisor is zero. *)
Lemma truediv_zero (n : Z) (x : float) (w : World) :
  (x =? 0)%float = true -> truediv n x w = Raise ZeroDivisionError w.
Proof. intros H. unfold truediv. now rewrite H. Qed.

Lemma truediv_nonzero (n : Z) (x : float) (w : World) :
  (x =? 0)%float = false -> truediv n x w = Return (float_of_int n / x)%float w.
Proof. intros H. unfold truediv. now rewrite H. Qed.

(* ===================================================================== *)
(** ** Properties of the script's functions *)
(* ===================================================================== *)

Section Properties.

Variable env : Env.

Lemma mkstemp_returns (attempts : nat) (w : World) (name : string) (w1 : World) :
  mkstemp env attempts w = Return name w1 ->
  files w !! name = None
  /\ files w1 = <[name := []]> (files w)
  /\ stdout w1 = stdout w /\ ticks w1 = ticks w.
Proof.
  revert w; induction attempts as [|n IH]; intros w; simpl; [discriminate|].
  destruct (files w !! temp_name env (draws w)) eqn:E.
  - intros H. apply IH in H. simpl in H. exact H.
  - intros [= <- <-]. simpl. auto.
Qed.

Lemma mkstemp_raises (attempts : nat) (w : World) (e : exn) (w1 : World) :
  mkstemp env attempts w = Raise e w1 ->
  e = FileExistsError /\ files w1 = files w /\ stdout w1 = stdout w.
Proof.
  revert w; induction attempts as [|n IH]; intros w; simpl.
  - intros [= <- <-]. auto.
  - destruct (files w !! temp_name env (draws w)) eqn:E; [|discriminate].
    intros H. apply IH in H. simpl in H. exact H.
Qed.

Lemma calc_md5_found (fname : string) (content : list byte) (w : World) :
  files w !! fname = Some content ->
  calc_md5 fname w = Return (digest_of content) w.
Proof.
  intros H. unfold calc_md5, bind, open_rb, ret. rewrite H.
  rewrite md5_blockwise by lia. reflexivity.
Qed.

Lemma calc_md5_missing (fname : string) (w : World) :
  files w !! fname = None ->
  calc_md5 fname w = Raise (FileNotFoundError fname) w.
Proof. intros H. unfold calc_md5, bind, open_rb. now rewrite H. Qed.

Lemma calc_md5_inv (fname : string) (w : World) (md5 : list byte) (w' : World) :
  calc_md5 fname w = Return md5 w' ->
  w' = w /\ exists content, files w !! fname = Some content /\ md5 = digest_of content.
Proof.
  destruct (files w !! fname) as [content|] eqn:E.
  - rewrite (calc_md5_found _ _ _ E). intros [= <- <-]. eauto.
  - rewrite (calc_md5_missing _ _ E). discriminate.
Qed.

Lemma file_size_found (fname : string) (content : list byte) (w : World) :
  files w !! fname = Some content ->
  file_size fname w = Return (Z.of_nat (length content)) w.
Proof. intros H. unfold file_size, bind, open_rb, ret. now rewrite H. Qed.

(** The [try] block, once the download has returned and left a file. *)
Lemma bench_download_body_after (file_desc : FileDesc) (download_func : function float)
    (name : string) (w1 : World) (t : float) (w2 : World) (content : list byte) :
  call download_func (fd_url file_desc) name w1 = Return t w2 ->
  files w2 !! name = Some content ->
  bench_download_body env file_desc download_func name w1 =
    if negb (Bytes.eqb (digest_of content) (fd_md5 file_desc))
    then Return tt (printed (mismatch_line (__name__ download_func) file_desc
                                           (digest_of content)) w2)
    else if (t =? 0)%float then Raise ZeroDivisionError w2
    else Return tt (printed (throughput_line env (__name__ download_func) t
                               (Z.of_nat (length content))
                               (float_of_int (Z.of_nat (length content)) / t)%float) w2).
Proof.
  intros Hcall Hfile. unfold bench_download_body, bind. rewrite Hcall.
  rewrite (calc_md5_found _ _ _ Hfile).
  destruct (negb _); [reflexivity|].
  rewrite (file_size_found _ _ _ Hfile). unfold truediv.
  destruct (t =? 0)%float; reflexivity.
Qed.

Lemma bench_download_unfold (file_desc : FileDesc) (download_func : function float)
    (w : World) :
  bench_download env file_desc download_func w =
    match NamedTemporaryFile env w with
    | Return name w1 =>
        try_finally (bench_download_body env file_desc download_func name)
                    (unlink name) w1
    | Raise e w1 => Raise e w1
    end.
Proof. reflexivity. Qed.

Lemma unlink_found (path : string) (w : World) :
  is_Some (files w !! path) -> unlink path w = Return tt (removed path w).
Proof. intros [c H]. unfold unlink. now rewrite H. Qed.

Lemma unlink_missing (path : string) (w : World) :
  files w !! path = None -> unlink path w = Raise (FileNotFoundError path) w.
Proof. intros H. unfold unlink. now rewrite H. Qed.

(** Whatever happens in the [try] block, the path is free afterwards. *)
Lemma try_finally_unlink {A} (body : Py A) (path : string) (w : World) :
  files (world_of (try_finally body (unlink path) w)) !! path = None.
Proof.
  unfold try_finally.
  destruct (body w) as [a w1|e w1];
    (destruct (files w1 !! path) as [c|] eqn:E;
     [ rewrite unlink_found by eauto; simpl; apply lookup_delete_eq
     | rewrite unlink_missing by assumption; simpl; assumption ]).
Qed.

(** The whole iteration, once the download has returned and left a file. *)
Lemma bench_download_after (file_desc : FileDesc) (download_func : function float)
    (w : World) (name : string) (w1 : World) (t : float) (w2 : World)
    (content : list byte) :
  NamedTemporaryFile env w = Return name w1 ->
  call download_func (fd_url file_desc) name w1 = Return t w2 ->
  files w2 !! name = Some content ->
  bench_download env file_desc download_func w =
    if negb (Bytes.eqb (digest_of content) (fd_md5 file_desc))
    then Return tt (removed name
           (printed (mismatch_line (__name__ download_func) file_desc
                                   (digest_of content)) w2))
    else if (t =? 0)%float then Raise ZeroDivisionError (removed name w2)
    else Return tt (removed name
           (printed (throughput_line env (__name__ download_func) t
                       (Z.of_nat (length content))
                       (float_of_int (Z.of_nat (length content)) / t)%float) w2)).
Proof.
  intros Htmp Hcall Hfile. rewrite bench_download_unfold, Htmp.
  unfold try_finally.
  rewrite (bench_download_body_after _ _ _ _ _ _ _ Hcall Hfile).
  destruct (negb _); [|destruct (t =? 0)%float];
    rewrite unlink_found by (simpl; eauto); reflexivity.
Qed.

(** The iteration when the download raises: the error comes out of
    [bench_download] once the temporary file is gone, nothing is printed. *)
Lemma bench_download_failed (file_desc : FileDesc) (download_func : function float)
    (w : World) (name : string) (w1 : World) (e : exn) (w2 : World) :
  NamedTemporaryFile env w = Return name w1 ->
  call download_func (fd_url file_desc) name w1 = Raise e w2 ->
  bench_download env file_desc download_func w =
    match files w2 !! name with
    | Some _ => Raise e (removed name w2)
    | None => Raise (FileNotFoundError name) w2
    end.
Proof.
  intros Htmp Hcall. rewrite bench_download_unfold, Htmp.
  unfold try_finally, bench_download_body, bind. rewrite Hcall.
  destruct (files w2 !! name) eqn:E.
  - rewrite unlink_found by eauto. reflexivity.
  - rewrite unlink_missing by assumption. reflexivity.
Qed.

(** What a decorated function does, in terms of the function it wraps. *)
Lemma wrapper_unfold {R} (download_func : function R) (url fname : string) (w : World) :
  wrapper env download_func url fname w =
    match call download_func url fname (ticked w) with
    | Return _ w2 => Return (clock env (ticks w2) - clock env (ticks w))%float (ticked w2)
    | Raise e w2 => Raise e w2
    end.
Proof.
  unfold wrapper, bind, time, ret. fold (ticked w).
  destruct (call download_func url fname (ticked w)); reflexivity.
Qed.

Lemma time_unfold (w : World) : time env w = Return (clock env (ticks w)) (ticked w).
Proof. reflexivity. Qed.

(** A decorated function brackets the call of the function it wraps with
    two clock readings and returns their difference. *)
Lemma wrapper_timed {R} (download_func : function R) (url fname : string)
    (w : World) (start : float) (w' : World) (r : R) (w2 : World)
    (end_ : float) (w2' : World) :
  time env w = Return start w' ->
  call download_func url fname w' = Return r w2 ->
  time env w2 = Return end_ w2' ->
  wrapper env download_func url fname w = Return (end_ - start)%float w2'.
Proof.
  rewrite !time_unfold. intros [= <- <-] Hcall [= <- <-].
  rewrite wrapper_unfold, Hcall. reflexivity.
Qed.

(* ------------------------------------------------------------------- *)
(** *** Loops, the cross product and the pool *)

Lemma list_map_app {A B} (fn : A -> Py B) (xs ys : list A) (w : World) :
  list_map fn (xs ++ ys) w =
    match list_map fn xs w with
    | Return bs w1 =>
        match list_map fn ys w1 with
        | Return cs w2 => Return (bs ++ cs) w2
        | Raise e w2 => Raise e w2
        end
    | Raise e w1 => Raise e w1
    end.
Proof.
  revert w; induction xs as [|x xs IH]; intros w; simpl.
  - unfold ret. destruct (list_map fn ys w); reflexivity.
  - unfold bind, ret. destruct (fn x w) as [b w1|e w1]; [|reflexivity].
    rewrite IH. destruct (list_map fn xs w1) as [bs w2|e w2]; [|reflexivity].
    destruct (list_map fn ys w2); reflexivity.
Qed.

Lemma list_map_cons_raise {A B} (fn : A -> Py B) (x : A) (xs : list A) (w : World)
    (e : exn) (w' : World) :
  fn x w = Raise e w' -> list_map fn (x :: xs) w = Raise e w'.
Proof. intros H. simpl. unfold bind. now rewrite H. Qed.






Lemma product_length {A B} (xs : list A) (ys : list B) :
  length (product xs ys) = (length xs * length ys)%nat.
Proof.
  induction xs as [|x xs IH]; [reflexivity|].
  change (product (x :: xs) ys) with (map (fun y => (x, y)) ys ++ product xs ys).
  rewrite length_app, length_map, IH, length_cons. lia.
Qed.

Lemma results_finished {B} (bs : list B) : results (map Finished bs) = inr bs.
Proof. induction bs as [|b bs IH]; simpl; [reflexivity | now rewrite IH]. Qed.

(** While no work item fails, the worker does what [list(map(...))] does. *)
Lemma worker_all_return {A B} (fn : A -> Py B) (tasks : list A) (w : World)
    (bs : list B) (w' : World) :
  list_map fn tasks w = Return bs w' ->
  worker env fn tasks None w = (map Finished bs, w').
Proof.
  revert w bs; induction tasks as [|x tasks IH]; intros w bs; simpl.
  - now intros [= <- <-].
  - unfold bind. destruct (fn x w) as [b w1|e w1]; [|discriminate].
    destruct (list_map fn tasks w1) as [cs w2|e w2] eqn:E; [|discriminate].
    intros [= <- <-]. rewrite (IH _ _ E). reflexivity.
Qed.

(** The first work item that fails decides what the pool raises. *)
Lemma worker_first_failure {A B} (fn : A -> Py B) (tasks : list A) (w : World)
    (e : exn) (w' : World) :
  list_map fn tasks w = Raise e w' ->
  results (worker env fn tasks None w).1 = inl e.
Proof.
  revert w; induction tasks as [|x tasks IH]; intros w; simpl; [discriminate|].
  unfold bind. destruct (fn x w) as [b w1|e1 w1].
  - destruct (list_map fn tasks w1) as [cs w2|e2 w2] eqn:E; [discriminate|].
    intros [= <- <-]. specialize (IH _ E).
    destruct (worker env fn tasks None w1) as [fs w3]. simpl in *. now rewrite IH.
  - intros [= <- <-].
    destruct (worker env fn tasks (Some (cancel_lag env w1)) w1). reflexivity.
Qed.

(** With a single worker, dispatching through the pool computes what the
    direct pass computes; when an item fails, both raise its exception. *)
Lemma executor_map_list_map {A B} (fn : A -> Py B) (tasks : list A) (w : World) :
  match list_map fn tasks w with
  | Return bs w' => executor_map env fn tasks w = Return bs w'
  | Raise e _ => exists w', executor_map env fn tasks w = Raise e w'
  end.
Proof.
  destruct (list_map fn tasks w) as [bs w'|e w'] eqn:E; unfold executor_map.
  - rewrite (worker_all_return _ _ _ _ _ E), results_finished. reflexivity.
  - pose proof (worker_first_failure _ _ _ _ _ E) as H.
    destruct (worker env fn tasks None w) as [fs w'']. simpl in H.
    rewrite H. eauto.
Qed.

Lemma run_download_bench_on_unfold (files_ : list FileDesc)
    (funcs : list (function float)) (w : World) :
  run_download_bench_on env files_ funcs w =
    match list_map (bench_pair env) (product files_ funcs) (printed header_main w) with
    | Return _ w1 =>
        match executor_map env (bench_pair env) (product files_ funcs)
                           (printed header_pool w1) with
        | Return _ w2 => Return tt w2
        | Raise e w2 => Raise e w2
        end
    | Raise e w1 => Raise e w1
    end.
Proof.
  unfold run_download_bench_on, bind, print. fold (printed header_main w).
  unfold bench_pair.
  destruct (list_map _ _ (printed header_main w)) as [bs w1|e w1]; [|reflexivity].
  fold (printed header_pool w1).
  destruct (executor_map _ _ _ _); reflexivity.
Qed.


End Properties.

(* ===================================================================== *)
(** ** The digest: block-wise hashing (C7) *)
(* ===================================================================== *)

(** C7. For every file, [calc_md5], which reads the file in blocks of
    1 MiB (none empty, none longer than 1 MiB, all but the last exactly
    1 MiB) and feeds each block to the incremental MD5 object, returns the
    base64 encoding of the 128-bit digest obtained by hashing the whole
    content in one go. *)
Theorem calc_md5_blockwise_is_whole (fname : string) (content : list byte) (w : World) :
  files w !! fname = Some content ->
  calc_md5 fname w = Return (Base64.b64encode (MD5.hash content)) w
  /\ calc_md5 fname w =
       Return (Base64.b64encode (MD5.digest
                 (fold_left MD5.update (read_blocks (1024 * 1024) content) MD5.new))) w
  /\ concat (read_blocks (1024 * 1024) content) = content
  /\ Forall (fun blk => blk <> [] /\ (N.of_nat (length blk) <= 1024 * 1024)%N)
            (read_blocks (1024 * 1024) content)
  /\ (forall pre blk nxt post,
        read_blocks (1024 * 1024) content = pre ++ blk :: nxt :: post ->
        N.of_nat (length blk) = (1024 * 1024)%N)
  /\ length (MD5.hash content) = 16%nat.
Proof.
  intros Hfile. split; [exact (calc_md5_found _ _ _ Hfile)|].
  split; [unfold calc_md5, bind, open_rb, ret; now rewrite Hfile|].
  split; [apply read_blocks_concat; lia|].
  split; [apply blocks_upto_bounds|].
  split; [|apply md5_digest_length].
  intros pre blk nxt post H. eapply blocks_upto_full. exact H.
Qed.

(** The digest of the 12-byte fixture as stored on a disk. *)
Lemma calc_md5_blockwise_is_whole_witness :
  files Demo.w_hello !! "/data/hello.txt"%string = Some Demo.hello
  /\ calc_md5 "/data/hello.txt" Demo.w_hello
     = Return (Bytes.of_str "/D/5joxqDTCH1RXARz+Gdw==") Demo.w_hello.
Proof.
  split; [reflexivity|].
  exact (proj1 (calc_md5_blockwise_is_whole "/data/hello.txt" Demo.hello
                  Demo.w_hello eq_refl)).
Defined.

(* ===================================================================== *)
(** ** The temporary file (C3) *)
(* ===================================================================== *)

(** C3. The temporary file of an iteration is freshly created (its path was
    free before, and holds an empty file when the [try] block starts) and
    its path is free again in the world the iteration leaves behind,
    whichever way the iteration ends: a returned throughput line, a
    returned mismatch line, or an exception of the strategy, of the hash or
    of the division travelling on. *)
Theorem temp_file_removed (env : Env) (file_desc : FileDesc)
    (download_func : function float) (w : World) (name : string) (w1 : World) :
  NamedTemporaryFile env w = Return name w1 ->
  files w !! name = None
  /\ files w1 !! name = Some []
  /\ forall o, o = bench_download env file_desc download_func w ->
       match o with
       | Return _ w' => files w' !! name = None
       | Raise _ w' => files w' !! name = None
       end.
Proof.
  intros Htmp. destruct (mkstemp_returns _ _ _ _ _ Htmp) as (Hfresh & Hfs & _).
  split; [assumption|]. split; [rewrite Hfs; apply lookup_insert_eq|].
  intros o ->. rewrite bench_download_unfold, Htmp.
  pose proof (try_finally_unlink
                (bench_download_body env file_desc download_func name) name w1) as H.
  destruct (try_finally _ _ w1); exact H.
Qed.

(** With the server out of reach the iteration raises, and the temporary
    file it created is gone. *)
Lemma temp_file_removed_witness :
  NamedTemporaryFile Demo.env_offline Demo.w0
    = Return "/tmp/tmpa"%string (mkWorld {[ "/tmp/tmpa"%string := [] ]} [] 0 1)
  /\ returns (bench_download Demo.env_offline Demo.fd_hello
                (requests_raw_shutil Demo.env_offline) Demo.w0) = false
  /\ files (world_of (bench_download Demo.env_offline Demo.fd_hello
                        (requests_raw_shutil Demo.env_offline) Demo.w0))
       !! "/tmp/tmpa"%string = None.
Proof.
  assert (Htmp : NamedTemporaryFile Demo.env_offline Demo.w0
            = Return "/tmp/tmpa"%string (mkWorld {[ "/tmp/tmpa"%string := [] ]} [] 0 1))
    by (vm_compute; reflexivity).
  split; [exact Htmp|]. split; [vm_compute; reflexivity|].
  pose proof (proj2 (proj2 (temp_file_removed Demo.env_offline Demo.fd_hello
               (requests_raw_shutil Demo.env_offline) Demo.w0 _ _ Htmp)) _ eq_refl) as H.
  destruct (bench_download _ _ _ _); exact H.
Defined.

(* ===================================================================== *)
(** ** One line per completed iteration (C2) *)
(* ===================================================================== *)

(** C2, as stated, fails: with a clock that does not move between the
    two readings, the download of the fixture and the digest computation
    complete and the digests are equal, yet the iteration prints neither
    line and ends in [ZeroDivisionError]. *)
Lemma one_line_counterexample :
  let download_func := requests_raw_shutil Demo.env_frozen in
  let w1 := mkWorld {[ "/tmp/tmpa"%string := [] ]} [] 0 1 in
  let w2 := mkWorld {[ "/tmp/tmpa"%string := Demo.hello ]} [] 2 1 in
  NamedTemporaryFile Demo.env_frozen Demo.w0 = Return "/tmp/tmpa"%string w1
  /\ call download_func (fd_url Demo.fd_hello) "/tmp/tmpa" w1 = Return 0%float w2
  /\ calc_md5 "/tmp/tmpa" w2 = Return (fd_md5 Demo.fd_hello) w2
  /\ bench_download Demo.env_frozen Demo.fd_hello download_func Demo.w0
     = Raise ZeroDivisionError (mkWorld ∅ [] 2 1).
Proof. vm_compute. repeat split; reflexivity. Qed.

(** C2, amended. For every iteration in which the download returns and
    the digest computation completes: when the digest differs from the
    expected one, the iteration prints exactly one line, the mismatch line
    (which contains the strategy name, the file name, the size label and
    both digests), whatever the elapsed time, so no throughput is computed;
    when the digest is the expected one and the elapsed time is not zero,
    it prints exactly one line, the throughput line; when the digest is the
    expected one and the elapsed time is zero, it prints no line and
    raises [ZeroDivisionError]. *)
Theorem one_line_per_completed_iteration (env : Env) (file_desc : FileDesc)
    (download_func : function float) (w : World) (name : string) (w1 : World)
    (total_time : float) (w2 : World) (md5 : list byte) (w3 : World) :
  NamedTemporaryFile env w = Return name w1 ->
  call download_func (fd_url file_desc) name w1 = Return total_time w2 ->
  calc_md5 name w2 = Return md5 w3 ->
  (md5 <> fd_md5 file_desc ->
     let line := mismatch_line (__name__ download_func) file_desc md5 in
     bench_download env file_desc download_func w
       = Return tt (removed name (printed line w2))
     /\ stdout (removed name (printed line w2)) = stdout w2 ++ [line]
     /\ Str.occurs_in (__name__ download_func) line
     /\ Str.occurs_in (fd_name file_desc) line
     /\ Str.occurs_in (fd_size file_desc) line
     /\ Str.occurs_in (Bytes.repr md5) line
     /\ Str.occurs_in (Bytes.repr (fd_md5 file_desc)) line)
  /\ (md5 = fd_md5 file_desc -> (total_time =? 0)%float = false ->
      exists total_bytes : Z,
        file_size name w2 = Return total_bytes w2
        /\ let line := throughput_line env (__name__ download_func) total_time
                         total_bytes (float_of_int total_bytes / total_time)%float in
           bench_download env file_desc download_func w
             = Return tt (removed name (printed line w2))
           /\ stdout (removed name (printed line w2)) = stdout w2 ++ [line])
  /\ (md5 = fd_md5 file_desc -> (total_time =? 0)%float = true ->
      bench_download env file_desc download_func w
        = Raise ZeroDivisionError (removed name w2)
      /\ stdout (removed name w2) = stdout w2).
Proof.
  intros Htmp Hcall Hmd5.
  apply calc_md5_inv in Hmd5 as (_ & content & Hfile & ->).
  pose proof (bench_download_after env file_desc download_func
                _ _ _ _ _ _ Htmp Hcall Hfile) as H.
  split; [|split].
  - intros Hne. apply bytes_eqb_neq in Hne. rewrite Hne in H. simpl in H.
    split; [exact H|]. split; [reflexivity|].
    unfold mismatch_line.
    repeat split; repeat first [apply occurs_in_head | apply occurs_in_tail].
  - intros Heq Ht. apply bytes_eqb_eq in Heq. rewrite Heq, Ht in H. simpl in H.
    exists (Z.of_nat (length content)).
    split; [exact (file_size_found _ _ _ Hfile)|]. split; [exact H | reflexivity].
  - intros Heq Ht. apply bytes_eqb_eq in Heq. rewrite Heq, Ht in H. simpl in H.
    split; [exact H | reflexivity].
Qed.

(** The same download checked against a descriptor with another digest
    and against the descriptor of the fixture: one mismatch line, one
    throughput line. *)
Lemma one_line_per_completed_iteration_witness :
  let env := Demo.env_ok in
  let download_func := curl_subprocess env in
  let file_desc := hd Demo.fd_hello FILES in
  bench_download env file_desc download_func Demo.w0
  = Return tt (mkWorld ∅
      ["Error in benchmark of curl_subprocess using file desc LC80440342016259LGN00_BQA.TIF (3.2MB): MD5 mismatch (b'/D/5joxqDTCH1RXARz+Gdw==' != b'zqigvl5Envmi/GLc8yH51A==')"%string]
      2 1)
  /\ bench_download env Demo.fd_hello download_func Demo.w0
     = Return tt (mkWorld ∅
         ["curl_subprocess         _.__ sec       _ B       _ B/s"%string] 2 1).
Proof.
  set (w1 := mkWorld {[ "/tmp/tmpa"%string := [] ]} [] 0 1).
  set (w2 := mkWorld {[ "/tmp/tmpa"%string := Demo.hello ]} [] 2 1).
  intros env download_func file_desc.
  assert (Htmp : NamedTemporaryFile env Demo.w0 = Return "/tmp/tmpa"%string w1)
    by (vm_compute; reflexivity).
  assert (Hmd5 : calc_md5 "/tmp/tmpa" w2
                 = Return (Bytes.of_str "/D/5joxqDTCH1RXARz+Gdw==") w2)
    by (vm_compute; reflexivity).
  split.
  - assert (Hcall : call download_func (fd_url file_desc) "/tmp/tmpa" w1
                    = Return 2%float w2) by (vm_compute; reflexivity).
    destruct (one_line_per_completed_iteration env file_desc download_func
                _ _ _ _ _ _ _ Htmp Hcall Hmd5) as (Hmis & _).
    destruct Hmis as (Hrun & _); [vm_compute; discriminate|].
    rewrite Hrun. vm_compute. reflexivity.
  - assert (Hcall : call download_func (fd_url Demo.fd_hello) "/tmp/tmpa" w1
                    = Return 2%float w2) by (vm_compute; reflexivity).
    destruct (one_line_per_completed_iteration env Demo.fd_hello download_func
                _ _ _ _ _ _ _ Htmp Hcall Hmd5) as (_ & Hok & _).
    destruct Hok as (n & _ & Hrun & _); [reflexivity | reflexivity |].
    rewrite Hrun. vm_compute. reflexivity.
Defined.

(* ===================================================================== *)
(** ** Throughput and elapsed time (C4, C9, C10) *)
(* ===================================================================== *)

(** C4. For a decorated download function, take the clock reading made
    immediately before the wrapped function is called and the one made
    immediately after it returns.  When the digest of the downloaded file
    matches, [file_size] returns the length of that file on the file
    system (no count of bytes read is involved), the division returns
    that length divided by the difference of the two readings, and the
    line printed is made of the name, that difference, that length and
    that quotient, in this order: the throughput reported, the field
    before [/s], is the rendering of length / elapsed. *)
Theorem throughput_is_size_over_elapsed {R : Type} (env : Env)
    (registry : list (function float)) (download_func : function R)
    (file_desc : FileDesc) (w : World) (name : string) (w1 : World)
    (start : float) (w1' : World) (r : R) (w2 : World)
    (end_ : float) (w2' : World) (content : list byte) :
  NamedTemporaryFile env w = Return name w1 ->
  time env w1 = Return start w1' ->
  call download_func (fd_url file_desc) name w1' = Return r w2 ->
  time env w2 = Return end_ w2' ->
  files w2' !! name = Some content ->
  digest_of content = fd_md5 file_desc ->
  (end_ - start =? 0)%float = false ->
  let elapsed := (end_ - start)%float in
  let total_bytes := Z.of_nat (length content) in
  let speed := (float_of_int total_bytes / elapsed)%float in
  let line :=
    (Str.ljust 22 (__name__ download_func)
     +:+ Str.rjust 6 (format_2f env elapsed) +:+ " sec"
     +:+ Str.rjust 10 (naturalsize env (float_of_int total_bytes))
     +:+ Str.rjust 10 (naturalsize env speed) +:+ "/s")%string in
  file_size name w2' = Return total_bytes w2'
  /\ truediv total_bytes elapsed w2' = Return speed w2'
  /\ bench_download env file_desc (bench env registry download_func).1 w
     = Return tt (mkWorld (delete name (files w2')) (stdout w2' ++ [line])
                          (ticks w2') (draws w2'))
  /\ exists fields : string,
       line = (fields +:+ Str.rjust 10 (naturalsize env speed) +:+ "/s")%string.
Proof.
  intros Htmp Hstart Hcall Hend Hfile Hmd5 Hnz elapsed total_bytes speed line.
  split; [exact (file_size_found _ _ _ Hfile)|].
  split; [now apply truediv_nonzero|].
  split.
  - pose proof (wrapper_timed env download_func _ _ _ _ _ _ _ _ _ Hstart Hcall Hend)
      as Hw.
    rewrite (bench_download_after env file_desc (bench env registry download_func).1
               _ _ _ _ _ _ Htmp Hw Hfile).
    apply bytes_eqb_eq in Hmd5. rewrite Hmd5. simpl. rewrite Hnz.
    reflexivity.
  - exists (Str.ljust 22 (__name__ download_func)
            +:+ Str.rjust 6 (format_2f env elapsed) +:+ " sec"
            +:+ Str.rjust 10 (naturalsize env (float_of_int total_bytes)))%string.
    unfold line. rewrite !string_app_assoc. reflexivity.
Qed.

(** Twelve bytes in two seconds: six bytes per second, in the last
    field of the line. *)
Lemma throughput_is_size_over_elapsed_witness :
  let env := Cases.env_readable in
  (float_of_int 12 / (Demo.steady 1 - Demo.steady 0) = 6)%float
  /\ bench_download env Demo.fd_hello (bench env [] (wget_subprocess_def env)).1 Demo.w0
     = Return tt (mkWorld ∅
         ["wget_subprocess         2.00 sec  12 Bytes   6 Bytes/s"%string] 2 1).
Proof.
  intros env. split; [reflexivity|].
  set (w1 := mkWorld {[ "/tmp/tmpa"%string := [] ]} [] 0 1).
  set (w2 := mkWorld {[ "/tmp/tmpa"%string := Demo.hello ]} [] 1 1).
  assert (Htmp : NamedTemporaryFile env Demo.w0 = Return "/tmp/tmpa"%string w1)
    by (vm_compute; reflexivity).
  assert (Hcall : call (wget_subprocess_def env) (fd_url Demo.fd_hello) "/tmp/tmpa"
                       (ticked w1) = Return tt w2) by (vm_compute; reflexivity).
  destruct (throughput_is_size_over_elapsed env [] (wget_subprocess_def env)
              Demo.fd_hello Demo.w0 "/tmp/tmpa" w1 (Demo.steady 0) (ticked w1) tt w2
              (Demo.steady 1) (ticked w2) Demo.hello
              Htmp eq_refl Hcall eq_refl)
    as (_ & _ & Hrun & _); [reflexivity | reflexivity | reflexivity |].
  rewrite Hrun. vm_compute. reflexivity.
Defined.

(** C9, as stated, fails: the division is defined for an elapsed time
    that is not strictly positive as well.  With a clock set back by two
    seconds during the download the difference of the readings is -2,
    the division returns -6 and the iteration prints the throughput line
    with these values. *)
Lemma division_is_defined_for_negative_elapsed_counterexample :
  let env := Cases.env_readable_backwards in
  let elapsed := (Cases.backwards 1 - Cases.backwards 0)%float in
  elapsed = (-2)%float
  /\ (0 <? elapsed)%float = false
  /\ truediv 12 elapsed Demo.w0 = Return (-6)%float Demo.w0
  /\ bench_download env Demo.fd_hello (bench env [] (curl_subprocess_def env)).1 Demo.w0
     = Return tt (mkWorld ∅
         ["curl_subprocess        -2.00 sec  12 Bytes  -6 Bytes/s"%string] 2 1).
Proof. vm_compute. repeat split; reflexivity. Qed.

(** C9, amended. The division of the byte count by the elapsed time has
    no guard: it raises [ZeroDivisionError] exactly when the difference
    of the two clock readings is zero, and is defined for every other
    difference, strictly positive or strictly negative.  For a decorated
    download function whose downloaded file has the expected digest: when
    the difference is zero the iteration ends in [ZeroDivisionError] with
    no line printed; when it is not zero the division returns the
    quotient and the iteration returns after printing the throughput
    line. *)
Theorem division_fails_exactly_at_zero_elapsed {R : Type} (env : Env)
    (registry : list (function float)) (download_func : function R)
    (file_desc : FileDesc) (w : World) (name : string) (w1 : World)
    (start : float) (w1' : World) (r : R) (w2 : World)
    (end_ : float) (w2' : World) (content : list byte) :
  NamedTemporaryFile env w = Return name w1 ->
  time env w1 = Return start w1' ->
  call download_func (fd_url file_desc) name w1' = Return r w2 ->
  time env w2 = Return end_ w2' ->
  files w2' !! name = Some content ->
  digest_of content = fd_md5 file_desc ->
  let total_bytes := Z.of_nat (length content) in
  let elapsed := (end_ - start)%float in
  let quotient := (float_of_int total_bytes / elapsed)%float in
  (truediv total_bytes elapsed w2' = Raise ZeroDivisionError w2'
   <-> (elapsed =? 0)%float = true)
  /\ ((elapsed =? 0)%float = true ->
      bench_download env file_desc (bench env registry download_func).1 w
      = Raise ZeroDivisionError
          (mkWorld (delete name (files w2')) (stdout w2') (ticks w2') (draws w2')))
  /\ ((elapsed =? 0)%float = false ->
      truediv total_bytes elapsed w2' = Return quotient w2'
      /\ bench_download env file_desc (bench env registry download_func).1 w
         = Return tt
             (mkWorld (delete name (files w2'))
                (stdout w2' ++ [throughput_line env (__name__ download_func) elapsed
                                  total_bytes quotient])
                (ticks w2') (draws w2')))
  /\ ((0 <? elapsed)%float = true -> (elapsed =? 0)%float = false)
  /\ ((elapsed <? 0)%float = true -> (elapsed =? 0)%float = false).
Proof.
  intros Htmp Hstart Hcall Hend Hfile Hmd5 total_bytes elapsed quotient.
  pose proof (wrapper_timed env download_func _ _ _ _ _ _ _ _ _ Hstart Hcall Hend) as Hw.
  pose proof (bench_download_after env file_desc (bench env registry download_func).1
                _ _ _ _ _ _ Htmp Hw Hfile) as Hrun.
  apply bytes_eqb_eq in Hmd5. rewrite Hmd5 in Hrun. simpl in Hrun.
  fold elapsed total_bytes in Hrun.
  split; [|split; [|split; [|split]]].
  - unfold truediv. destruct (elapsed =? 0)%float; split; intros H;
      try reflexivity; discriminate H.
  - intros Hz. rewrite Hz in Hrun. exact Hrun.
  - intros Hnz. rewrite Hnz in Hrun.
    split; [now apply truediv_nonzero | exact Hrun].
  - apply float_pos_nonzero.
  - apply float_neg_nonzero.
Qed.

(** The fixture fetched under a clock that stands still, under one that
    advances, and under one that is set back. *)
Lemma division_fails_exactly_at_zero_elapsed_witness :
  bench_download Demo.env_frozen Demo.fd_hello
                 (bench Demo.env_frozen [] (curl_subprocess_def Demo.env_frozen)).1
                 Demo.w0
    = Raise ZeroDivisionError (mkWorld ∅ [] 2 1)
  /\ bench_download Demo.env_ok Demo.fd_hello
                    (bench Demo.env_ok [] (curl_subprocess_def Demo.env_ok)).1 Demo.w0
     = Return tt (mkWorld ∅
         [throughput_line Demo.env_ok "curl_subprocess" 2 12 6] 2 1)
  /\ bench_download Cases.env_backwards Demo.fd_hello
       (bench Cases.env_backwards [] (curl_subprocess_def Cases.env_backwards)).1
       Demo.w0
     = Return tt (mkWorld ∅
         [throughput_line Cases.env_backwards "curl_subprocess" (-2) 12 (-6)] 2 1).
Proof.
  set (w1 := mkWorld {[ "/tmp/tmpa"%string := [] ]} [] 0 1).
  set (w2 := mkWorld {[ "/tmp/tmpa"%string := Demo.hello ]} [] 1 1).
  split; [|split].
  - assert (Htmp : NamedTemporaryFile Demo.env_frozen Demo.w0
                   = Return "/tmp/tmpa"%string w1) by (vm_compute; reflexivity).
    assert (Hcall : call (curl_subprocess_def Demo.env_frozen) (fd_url Demo.fd_hello)
                      "/tmp/tmpa" (ticked w1) = Return tt w2)
      by (vm_compute; reflexivity).
    destruct (division_fails_exactly_at_zero_elapsed Demo.env_frozen []
                (curl_subprocess_def Demo.env_frozen)
                Demo.fd_hello Demo.w0 "/tmp/tmpa" w1 (Demo.frozen 0) (ticked w1) tt w2
                (Demo.frozen 1) (ticked w2) Demo.hello
                Htmp eq_refl Hcall eq_refl eq_refl eq_refl) as (_ & Hzero & _).
    rewrite Hzero; [vm_compute; reflexivity | reflexivity].
  - assert (Htmp : NamedTemporaryFile Demo.env_ok Demo.w0
                   = Return "/tmp/tmpa"%string w1) by (vm_compute; reflexivity).
    assert (Hcall : call (curl_subprocess_def Demo.env_ok) (fd_url Demo.fd_hello)
                      "/tmp/tmpa" (ticked w1) = Return tt w2)
      by (vm_compute; reflexivity).
    destruct (division_fails_exactly_at_zero_elapsed Demo.env_ok []
                (curl_subprocess_def Demo.env_ok)
                Demo.fd_hello Demo.w0 "/tmp/tmpa" w1 (Demo.steady 0) (ticked w1) tt w2
                (Demo.steady 1) (ticked w2) Demo.hello
                Htmp eq_refl Hcall eq_refl eq_refl eq_refl) as (_ & _ & Hnz & _).
    destruct Hnz as (_ & Hrun); [reflexivity|].
    rewrite Hrun. vm_compute. reflexivity.
  - assert (Htmp : NamedTemporaryFile Cases.env_backwards Demo.w0
                   = Return "/tmp/tmpa"%string w1) by (vm_compute; reflexivity).
    assert (Hcall : call (curl_subprocess_def Cases.env_backwards)
                      (fd_url Demo.fd_hello) "/tmp/tmpa" (ticked w1) = Return tt w2)
      by (vm_compute; reflexivity).
    destruct (division_fails_exactly_at_zero_elapsed Cases.env_backwards []
                (curl_subprocess_def Cases.env_backwards)
                Demo.fd_hello Demo.w0 "/tmp/tmpa" w1 (Cases.backwards 0) (ticked w1)
                tt w2 (Cases.backwards 1) (ticked w2) Demo.hello
                Htmp eq_refl Hcall eq_refl eq_refl eq_refl) as (_ & _ & Hnz & _).
    destruct Hnz as (_ & Hrun); [reflexivity|].
    rewrite Hrun. vm_compute. reflexivity.
Defined.

(** C10. The module registers exactly four functions, in the order of
    their definitions, each under the name of the function it decorates,
    and each is the timing wrapper built by [bench]: it calls the
    decorated function between two clock readings, drops whatever that
    function returns and returns the second reading minus the first (an
    exception of the decorated function passes through).  [bench_download]
    takes the value returned by the registered function as the elapsed
    seconds it prints and divides by. *)
Theorem registered_functions_are_timing_wrappers (env : Env) :
  DOWNLOAD_FUNCTIONS env
    = [ requests_raw_shutil env; requests_chunks env;
        wget_subprocess env; curl_subprocess env ]
  /\ map __name__ (DOWNLOAD_FUNCTIONS env)
     = [ "requests_raw_shutil"; "requests_chunks";
         "wget_subprocess"; "curl_subprocess" ]%string
  /\ map call (DOWNLOAD_FUNCTIONS env)
     = [ wrapper env (requests_raw_shutil_def env); wrapper env (requests_chunks_def env);
         wrapper env (wget_subprocess_def env); wrapper env (curl_subprocess_def env) ]
  /\ (forall (R : Type) (registry : list (function float)) (download_func : function R),
        bench env registry download_func
        = (mkFunction (__name__ download_func) (wrapper env download_func),
           registry ++ [mkFunction (__name__ download_func) (wrapper env download_func)]))
  /\ (forall (R : Type) (download_func : function R) (url fname : string) (w : World),
        wrapper env download_func url fname w
        = match call download_func url fname (ticked w) with
          | Return _ w2 =>
              Return (clock env (ticks w2) - clock env (ticks w))%float (ticked w2)
          | Raise e w2 => Raise e w2
          end)
  /\ (forall (file_desc : FileDesc) (download_func : function float) (w : World)
        (name : string) (w1 : World) (total_time : float) (w2 : World)
        (content : list byte),
        NamedTemporaryFile env w = Return name w1 ->
        call download_func (fd_url file_desc) name w1 = Return total_time w2 ->
        files w2 !! name = Some content ->
        digest_of content = fd_md5 file_desc ->
        (total_time =? 0)%float = false ->
        bench_download env file_desc download_func w
        = Return tt (removed name
            (printed (throughput_line env (__name__ download_func) total_time
                        (Z.of_nat (length content))
                        (float_of_int (Z.of_nat (length content)) / total_time)%float)
                     w2))).
Proof.
  split; [reflexivity|]. split; [reflexivity|]. split; [reflexivity|].
  split; [reflexivity|]. split; [intros; apply wrapper_unfold|].
  intros file_desc download_func w name w1 t w2 content Htmp Hcall Hfile Hmd5 Hnz.
  rewrite (bench_download_after env _ _ _ _ _ _ _ _ Htmp Hcall Hfile).
  apply bytes_eqb_eq in Hmd5. rewrite Hmd5, Hnz. reflexivity.
Qed.

(** The registered [requests_chunks] returns the two seconds between its
    clock readings, and the runner reports them. *)
Lemma registered_functions_are_timing_wrappers_witness :
  let env := Demo.env_ok in
  call (requests_chunks env) (fd_url Demo.fd_hello) "/tmp/tmpa"
       (mkWorld {[ "/tmp/tmpa"%string := [] ]} [] 0 1)
    = Return 2%float (mkWorld {[ "/tmp/tmpa"%string := Demo.hello ]} [] 2 1)
  /\ bench_download env Demo.fd_hello (requests_chunks env) Demo.w0
     = Return tt (mkWorld ∅ [throughput_line env "requests_chunks" 2 12 6] 2 1).
Proof.
  intros env.
  set (w1 := mkWorld {[ "/tmp/tmpa"%string := [] ]} [] 0 1).
  set (w2 := mkWorld {[ "/tmp/tmpa"%string := Demo.hello ]} [] 2 1).
  assert (Hcall : call (requests_chunks env) (fd_url Demo.fd_hello) "/tmp/tmpa" w1
                  = Return 2%float w2) by (vm_compute; reflexivity).
  split; [exact Hcall|].
  assert (Htmp : NamedTemporaryFile env Demo.w0 = Return "/tmp/tmpa"%string w1)
    by (vm_compute; reflexivity).
  rewrite (proj2 (proj2 (proj2 (proj2 (proj2
             (registered_functions_are_timing_wrappers env)))))
             Demo.fd_hello (requests_chunks env) Demo.w0 "/tmp/tmpa" w1 2%float w2
             Demo.hello Htmp Hcall eq_refl eq_refl eq_refl).
  vm_compute. reflexivity.
Defined.

(* ===================================================================== *)
(** ** The external tools (C8) *)
(* ===================================================================== *)

(** C8. When the spawned [wget] (respectively [curl]) exits with a status
    other than zero, the strategy raises [CalledProcessError] with that
    status; the iteration then ends in an exception and prints nothing,
    so a failed tool is never reported as a download of zero bytes. *)
Theorem nonzero_exit_fails_iteration (env : Env) (file_desc : FileDesc)
    (w : World) (name : string) (w1 : World) (code : Z)
    (fs : gmap string (list byte)) :
  NamedTemporaryFile env w = Return name w1 ->
  code <> 0 ->
  (let cmd := ["wget"; "-q"; "-O"; name; fd_url file_desc]%string in
   spawn env (ticked w1) cmd = Exited code fs ->
   call (wget_subprocess env) (fd_url file_desc) name w1
     = Raise (CalledProcessError code cmd) (set_files fs (ticked w1))
   /\ returns (bench_download env file_desc (wget_subprocess env) w) = false
   /\ stdout (world_of (bench_download env file_desc (wget_subprocess env) w))
      = stdout w)
  /\ (let cmd := ["curl"; "-s"; "-o"; name; fd_url file_desc]%string in
      spawn env (ticked w1) cmd = Exited code fs ->
      call (curl_subprocess env) (fd_url file_desc) name w1
        = Raise (CalledProcessError code cmd) (set_files fs (ticked w1))
      /\ returns (bench_download env file_desc (curl_subprocess env) w) = false
      /\ stdout (world_of (bench_download env file_desc (curl_subprocess env) w))
         = stdout w).
Proof.
  intros Htmp Hcode. apply Z.eqb_neq in Hcode.
  destruct (mkstemp_returns _ _ _ _ _ Htmp) as (_ & _ & Hout & _).
  split; intros cmd Hspawn.
  - assert (Hcall : call (wget_subprocess env) (fd_url file_desc) name w1
              = Raise (CalledProcessError code cmd) (set_files fs (ticked w1))).
    { change (call (wget_subprocess env)) with (wrapper env (wget_subprocess_def env)).
      rewrite wrapper_unfold. simpl. unfold bind, check_call. fold cmd.
      now rewrite Hspawn, Hcode. }
    split; [exact Hcall|].
    rewrite (bench_download_failed env _ _ _ _ _ _ _ Htmp Hcall).
    destruct (files _ !! name); simpl; auto.
  - assert (Hcall : call (curl_subprocess env) (fd_url file_desc) name w1
              = Raise (CalledProcessError code cmd) (set_files fs (ticked w1))).
    { change (call (curl_subprocess env)) with (wrapper env (curl_subprocess_def env)).
      rewrite wrapper_unfold. simpl. unfold bind, check_call. fold cmd.
      now rewrite Hspawn, Hcode. }
    split; [exact Hcall|].
    rewrite (bench_download_failed env _ _ _ _ _ _ _ Htmp Hcall).
    destruct (files _ !! name); simpl; auto.
Qed.

(** Tools that cannot resolve the host: both iterations raise and print
    nothing. *)
Lemma nonzero_exit_fails_iteration_witness :
  let env := Demo.env_no_dns in
  let url := "http://no-such-host.invalid/hello.txt"%string in
  let file_desc := mkFileDesc "hello.txt" url (fd_md5 Demo.fd_hello) "12 Bytes" in
  bench_download env file_desc (wget_subprocess env) Demo.w0
    = Raise (CalledProcessError 4 ["wget"; "-q"; "-O"; "/tmp/tmpa"; url]%string)
            (mkWorld ∅ [] 1 1)
  /\ returns (bench_download env file_desc (curl_subprocess env) Demo.w0) = false
  /\ stdout (world_of (bench_download env file_desc (curl_subprocess env) Demo.w0)) = [].
Proof.
  intros env url file_desc.
  set (w1 := mkWorld {[ "/tmp/tmpa"%string := [] ]} [] 0 1).
  assert (Htmp : NamedTemporaryFile env Demo.w0 = Return "/tmp/tmpa"%string w1)
    by (vm_compute; reflexivity).
  split.
  - destruct (nonzero_exit_fails_iteration env file_desc Demo.w0 "/tmp/tmpa" w1 4
                (files w1) Htmp) as (Hwget & _); [lia|].
    destruct Hwget as (Hcall & _); [reflexivity|].
    rewrite (bench_download_failed env _ _ _ _ _ _ _ Htmp Hcall).
    vm_compute. reflexivity.
  - destruct (nonzero_exit_fails_iteration env file_desc Demo.w0 "/tmp/tmpa" w1 6
                (files w1) Htmp) as (_ & Hcurl); [lia|].
    destruct Hcurl as (_ & Hret & Hout); [reflexivity|].
    split; [exact Hret | exact Hout].
Defined.

(* ===================================================================== *)
(** ** A failing strategy (C1) *)
(* ===================================================================== *)

(** C1, as stated, fails: with a server that cannot be reached (and tools
    that would work), the first pair of the first pass raises, and with it
    the whole run: [run_download_bench] ends in that exception having
    printed the first header only; none of the remaining pairs is run. *)
Lemma failure_is_not_contained_counterexample :
  call (requests_raw_shutil Demo.env_offline)
       (fd_url (hd Demo.fd_hello FILES)) "/tmp/tmpa"
       (mkWorld {[ "/tmp/tmpa"%string := [] ]} [header_main] 0 1)
    = Raise (RequestException "connection refused")
            (mkWorld {[ "/tmp/tmpa"%string := [] ]} [header_main] 1 1)
  /\ run_download_bench Demo.env_offline Demo.w0
     = Raise (RequestException "connection refused")
             (mkWorld ∅ [header_main] 1 1)
  /\ bench_download Demo.env_offline (hd Demo.fd_hello FILES)
                    (wget_subprocess Demo.env_offline)
                    (mkWorld ∅ [header_main] 1 1)
     = Return tt (mkWorld ∅
         [header_main;
          mismatch_line "wget_subprocess" (hd Demo.fd_hello FILES)
                        (fd_md5 Demo.fd_hello)] 3 2).
Proof. vm_compute. repeat split; reflexivity. Qed.

(** C1, amended. When the strategy invocation of a pair fails, the error
    comes out of [bench_download] once the temporary file is removed (the
    strategy's own exception when the file is still there to remove), with
    no line printed for the pair; nothing catches it.  In the direct pass
    it ends the whole run at that pair: [run_download_bench] raises it and
    no later pair is run.  In the pool pass [run_download_bench] raises
    it as well. *)
Theorem strategy_failure_ends_the_run (env : Env) (files_ : list FileDesc)
    (funcs : list (function float)) (w : World)
    (done rest : list (FileDesc * function float))
    (file_desc : FileDesc) (download_func : function float)
    (w1 : World) (name : string) (w1' : World) (e : exn) (w2 : World) :
  product files_ funcs = done ++ (file_desc, download_func) :: rest ->
  NamedTemporaryFile env w1 = Return name w1' ->
  call download_func (fd_url file_desc) name w1' = Raise e w2 ->
  exists (e' : exn) (w3 : World),
    bench_download env file_desc download_func w1 = Raise e' w3
    /\ (is_Some (files w2 !! name) -> e' = e /\ w3 = removed name w2)
    /\ files w3 !! name = None
    /\ stdout w3 = stdout w2
    /\ (forall bs,
          list_map (bench_pair env) done (printed header_main w) = Return bs w1 ->
          run_download_bench_on env files_ funcs w = Raise e' w3)
    /\ (forall bs1 wm bs,
          list_map (bench_pair env) (product files_ funcs) (printed header_main w)
            = Return bs1 wm ->
          list_map (bench_pair env) done (printed header_pool wm) = Return bs w1 ->
          exists w4, run_download_bench_on env files_ funcs w = Raise e' w4).
Proof.
  intros Hpairs Htmp Hcall.
  pose proof (bench_download_failed env _ _ _ _ _ _ _ Htmp Hcall) as Hrun.
  assert (Hex : exists e' w3,
             bench_download env file_desc download_func w1 = Raise e' w3
             /\ (is_Some (files w2 !! name) -> e' = e /\ w3 = removed name w2)
             /\ files w3 !! name = None /\ stdout w3 = stdout w2).
  { destruct (files w2 !! name) as [c|] eqn:E.
    - exists e, (removed name w2). split; [exact Hrun|]. split; [auto|].
      split; [apply lookup_delete_eq | reflexivity].
    - exists (FileNotFoundError name), w2. split; [exact Hrun|].
      split; [intros [c Hc]; discriminate | auto]. }
  destruct Hex as (e' & w3 & Hb & Hsame & Hgone & Hout).
  assert (Hpair : forall xs,
            list_map (bench_pair env) ((file_desc, download_func) :: xs) w1
            = Raise e' w3) by (intros xs; apply list_map_cons_raise; exact Hb).
  exists e', w3. repeat (split; [assumption|]). split.
  - intros bs Hdone.
    rewrite run_download_bench_on_unfold, Hpairs, list_map_app, Hdone, Hpair.
    reflexivity.
  - intros bs1 wm bs Hpass Hdone.
    rewrite run_download_bench_on_unfold, Hpass.
    pose proof (executor_map_list_map env (bench_pair env) (product files_ funcs)
                  (printed header_pool wm)) as H.
    rewrite Hpairs, list_map_app, Hdone, Hpair in H.
    destruct H as [w4 H]. rewrite <- Hpairs in H. rewrite H. eauto.
Qed.

(** A server out of reach from the start ends the run in the direct pass;
    an outage at the first download of the pool pass ends it there. *)
Lemma strategy_failure_ends_the_run_witness :
  run_download_bench Demo.env_offline Demo.w0
    = Raise (RequestException "connection refused") (mkWorld ∅ [header_main] 1 1)
  /\ exists w4, run_download_bench Demo.env_outage Demo.w0
                = Raise (RequestException "connection refused") w4.
Proof.
  split.
  - set (env := Demo.env_offline).
    set (w1 := printed header_main Demo.w0).
    set (w1' := mkWorld {[ "/tmp/tmpa"%string := [] ]} [header_main] 0 1).
    set (w2 := mkWorld {[ "/tmp/tmpa"%string := [] ]} [header_main] 1 1).
    destruct (strategy_failure_ends_the_run env FILES (DOWNLOAD_FUNCTIONS env) Demo.w0
                [] (tl (product FILES (DOWNLOAD_FUNCTIONS env)))
                (hd Demo.fd_hello FILES) (requests_raw_shutil env)
                w1 "/tmp/tmpa" w1' (RequestException "connection refused") w2)
      as (e' & w3 & _ & Hsame & _ & _ & Hpass1 & _);
      [reflexivity | vm_compute; reflexivity | vm_compute; reflexivity |].
    destruct Hsame as [-> ->]; [vm_compute; eauto|].
    exact (Hpass1 [] eq_refl).
  - set (env := Demo.env_outage).
    set (pass1 := list_map (bench_pair env) (product FILES (DOWNLOAD_FUNCTIONS env))
                           (printed header_main Demo.w0)).
    set (w1 := printed header_pool (world_of pass1)).
    set (w1' := set_files {[ "/tmp/tmpm"%string := [] ]}
                  (mkWorld ∅ (stdout w1) 24 13)).
    set (w2 := set_files {[ "/tmp/tmpm"%string := [] ]}
                  (mkWorld ∅ (stdout w1) 25 13)).
    destruct (strategy_failure_ends_the_run env FILES (DOWNLOAD_FUNCTIONS env) Demo.w0
                [] (tl (product FILES (DOWNLOAD_FUNCTIONS env)))
                (hd Demo.fd_hello FILES) (requests_raw_shutil env)
                w1 "/tmp/tmpm" w1' (RequestException "connection refused") w2)
      as (e' & w3 & _ & Hsame & _ & _ & _ & Hpass2);
      [reflexivity | vm_compute; reflexivity | vm_compute; reflexivity |].
    destruct Hsame as [-> _]; [vm_compute; eauto|].
    exact (Hpass2 (repeat tt 12) (world_of pass1) [] ltac:(vm_compute; reflexivity) eq_refl).
Defined.

(* ===================================================================== *)
(** ** The two passes (C5, C6) *)
(* ===================================================================== *)

(** C5. Both passes of the runner apply the same operation,
    [bench_download], to the same sequence of pairs, the cross product of
    the files and the registered functions.  From any world, dispatching
    that sequence through the pool of one worker returns exactly what the
    direct pass returns, and raises the exception the direct pass raises.
    Two iterations on the same pair whose downloads left the same content
    end the same way as far as the digest is concerned: both print the
    same mismatch line, or both find the expected digest (and then each
    prints the throughput line for its own elapsed time, or divides by
    zero): only the timing differs. *)
Theorem pool_pass_same_outcomes (env : Env) :
  let pairs := product FILES (DOWNLOAD_FUNCTIONS env) in
  (forall w : World,
     run_download_bench env w
     = (print header_main ;;
        list_map (bench_pair env) pairs ;;
        print header_pool ;;
        executor_map env (bench_pair env) pairs ;;
        ret tt)%py w)
  /\ (forall w : World,
        match list_map (bench_pair env) pairs w with
        | Return bs w' => executor_map env (bench_pair env) pairs w = Return bs w'
        | Raise e _ => exists w', executor_map env (bench_pair env) pairs w = Raise e w'
        end)
  /\ (forall (file_desc : FileDesc) (download_func : function float)
        (content : list byte)
        (wA : World) (nameA : string) (wA1 : World) (tA : float) (wA2 : World)
        (wB : World) (nameB : string) (wB1 : World) (tB : float) (wB2 : World),
        NamedTemporaryFile env wA = Return nameA wA1 ->
        call download_func (fd_url file_desc) nameA wA1 = Return tA wA2 ->
        files wA2 !! nameA = Some content ->
        NamedTemporaryFile env wB = Return nameB wB1 ->
        call download_func (fd_url file_desc) nameB wB1 = Return tB wB2 ->
        files wB2 !! nameB = Some content ->
        (digest_of content <> fd_md5 file_desc
         /\ ends_as_mismatch file_desc download_func content nameA wA2
              (bench_download env file_desc download_func wA)
         /\ ends_as_mismatch file_desc download_func content nameB wB2
              (bench_download env file_desc download_func wB))
        \/ (digest_of content = fd_md5 file_desc
            /\ ends_as_match env download_func tA content nameA wA2
                 (bench_download env file_desc download_func wA)
            /\ ends_as_match env download_func tB content nameB wB2
                 (bench_download env file_desc download_func wB))).
Proof.
  intros pairs. split; [reflexivity|]. split; [intros w; apply executor_map_list_map|].
  intros file_desc download_func content wA nameA wA1 tA wA2 wB nameB wB1 tB wB2
         HtmpA HcallA HfileA HtmpB HcallB HfileB.
  pose proof (bench_download_after env file_desc download_func
                _ _ _ _ _ _ HtmpA HcallA HfileA) as HA.
  pose proof (bench_download_after env file_desc download_func
                _ _ _ _ _ _ HtmpB HcallB HfileB) as HB.
  unfold ends_as_mismatch, ends_as_match.
  destruct (Bytes.eqb (digest_of content) (fd_md5 file_desc)) eqn:E.
  - right. split; [now apply bytes_eqb_eq|]. simpl in HA, HB.
    split; [destruct (tA =? 0)%float | destruct (tB =? 0)%float]; assumption.
  - left. split; [now apply bytes_eqb_neq|]. simpl in HA, HB. split; assumption.
Qed.

(** The fixture fetched by [curl] in a first-pass world and in a
    second-pass world: the expected digest both times. *)
Lemma pool_pass_same_outcomes_witness :
  let env := Demo.env_ok in
  let line := throughput_line env "curl_subprocess" 2 12 6 in
  bench_download env Demo.fd_hello (curl_subprocess env) Demo.w0
    = Return tt (mkWorld ∅ [line] 2 1)
  /\ bench_download env Demo.fd_hello (curl_subprocess env)
                    (mkWorld ∅ [line; header_pool] 2 1)
     = Return tt (mkWorld ∅ [line; header_pool; line] 4 2).
Proof.
  intros env line.
  set (wA1 := mkWorld {[ "/tmp/tmpa"%string := [] ]} [] 0 1).
  set (wA2 := mkWorld {[ "/tmp/tmpa"%string := Demo.hello ]} [] 2 1).
  set (wB := mkWorld ∅ [line; header_pool] 2 1).
  set (wB1 := mkWorld {[ "/tmp/tmpb"%string := [] ]} [line; header_pool] 2 2).
  set (wB2 := mkWorld {[ "/tmp/tmpb"%string := Demo.hello ]} [line; header_pool] 4 2).
  destruct (proj2 (proj2 (pool_pass_same_outcomes env))
              Demo.fd_hello (curl_subprocess env) Demo.hello
              Demo.w0 "/tmp/tmpa"%string wA1 2%float wA2
              wB "/tmp/tmpb"%string wB1 2%float wB2)
    as [(Hne & _) | (_ & HA & HB)];
    try (vm_compute; reflexivity).
  - exfalso. apply Hne. vm_compute. reflexivity.
  - unfold ends_as_match in HA, HB. change (2 =? 0)%float with false in HA, HB.
    rewrite HA, HB. split; vm_compute; reflexivity.
Defined.



(* ===================================================================== *)
(** ** The download functions *)
(* ===================================================================== *)

(** Writing blocks one after the other appends their concatenation. *)
Lemma for_each_write (fname : string) (blocks : list (list byte)) (w : World)
    (acc : list byte) :
  files w !! fname = Some acc ->
  for_each blocks (write fname) w
  = Return tt (set_files (<[fname := acc ++ concat blocks]> (files w)) w).
Proof.
  revert w acc; induction blocks as [|blk blocks IH]; intros w acc Hacc; simpl.
  - rewrite app_nil_r, insert_id by assumption. now destruct w.
  - unfold bind, write at 1. rewrite Hacc. simpl.
    rewrite (IH _ (acc ++ blk)) by (simpl; apply lookup_insert_eq).
    simpl. unfold set_files. simpl. now rewrite insert_insert_eq, app_assoc.
Qed.

(** Copying a source into a file that was just opened for writing. *)
Lemma copy_into_opened (n : N) (source : stream) (fname : string) (w : World) :
  (0 < n)%N ->
  (open_wb fname ;; copy_blocks n source fname)%py w
  = match broken source with
    | Some e => Raise e (set_files (<[fname := pending source]> (files w)) w)
    | None => Return tt (set_files (<[fname := pending source]> (files w)) w)
    end.
Proof.
  intros Hn. unfold open_wb, copy_blocks, bind.
  rewrite (for_each_write fname _ _ []) by (simpl; apply lookup_insert_eq).
  rewrite read_blocks_concat by assumption. simpl. unfold set_files. simpl.
  rewrite insert_insert_eq. destruct (broken source); reflexivity.
Qed.

Lemma requests_raw_shutil_unfold (env : Env) (url fname : string) (w : World) :
  call (requests_raw_shutil env) url fname w
  = match http_get env (ticked w) url with
    | Refused e => Raise e (ticked w)
    | Response r =>
        match broken (raw r (16 * 1024)) with
        | Some e => Raise e (downloaded fname (pending (raw r (16 * 1024))) 1 w)
        | None =>
            Return (clock env (Datatypes.S (ticks w)) - clock env (ticks w))%float
                   (downloaded fname (pending (raw r (16 * 1024))) 2 w)
        end
    end.
Proof.
  change (call (requests_raw_shutil env)) with (wrapper env (requests_raw_shutil_def env)).
  rewrite wrapper_unfold.
  change (call (requests_raw_shutil_def env) url fname (ticked w))
    with ((response <- requests_get env url ;; open_wb fname ;;
           copy_blocks (16 * 1024) (raw response (16 * 1024)) fname)%py (ticked w)).
  unfold bind at 1. unfold requests_get.
  destruct (http_get env (ticked w) url) as [e|r]; [reflexivity|].
  rewrite copy_into_opened by lia.
  destruct (broken (raw r (16 * 1024))); reflexivity.
Qed.

Lemma requests_chunks_unfold (env : Env) (url fname : string) (w : World) :
  call (requests_chunks env) url fname w
  = match http_get env (ticked w) url with
    | Refused e => Raise e (ticked w)
    | Response r =>
        match broken (iter_content r (128 * 1024)) with
        | Some e =>
            Raise e (downloaded fname (pending (iter_content r (128 * 1024))) 1 w)
        | None =>
            Return (clock env (Datatypes.S (ticks w)) - clock env (ticks w))%float
                   (downloaded fname (pending (iter_content r (128 * 1024))) 2 w)
        end
    end.
Proof.
  change (call (requests_chunks env)) with (wrapper env (requests_chunks_def env)).
  rewrite wrapper_unfold.
  change (call (requests_chunks_def env) url fname (ticked w))
    with ((response <- requests_get env url ;; open_wb fname ;;
           copy_blocks (128 * 1024) (iter_content response (128 * 1024)) fname)%py
            (ticked w)).
  unfold bind at 1. unfold requests_get.
  destruct (http_get env (ticked w) url) as [e|r]; [reflexivity|].
  rewrite copy_into_opened by lia.
  destruct (broken (iter_content r (128 * 1024))); reflexivity.
Qed.





(** A temporary file that was created and removed leaves no trace. *)
Lemma delete_created (m : gmap string (list byte)) (name : string) (c : list byte) :
  m !! name = None -> delete name (<[name := c]> m) = m.
Proof. intros H. now rewrite delete_insert_eq, delete_id. Qed.

(** X3. When the request itself fails, the [requests] functions raise
    its error before the destination is opened; the iteration raises that
    very error, prints nothing, and leaves the file system as it was. *)
Theorem request_refused (env : Env) (file_desc : FileDesc) (w : World)
    (name : string) (w1 : World) (e : exn) (download_func : function float) :
  download_func = requests_raw_shutil env \/ download_func = requests_chunks env ->
  NamedTemporaryFile env w = Return name w1 ->
  http_get env (ticked w1) (fd_url file_desc) = Refused e ->
  call download_func (fd_url file_desc) name w1 = Raise e (ticked w1)
  /\ bench_download env file_desc download_func w
     = Raise e (mkWorld (files w) (stdout w) (Datatypes.S (ticks w)) (draws w1)).
Proof.
  intros Hf Htmp Hget.
  assert (Hcall : call download_func (fd_url file_desc) name w1 = Raise e (ticked w1)).
  { destruct Hf as [-> | ->];
      [rewrite requests_raw_shutil_unfold | rewrite requests_chunks_unfold];
      now rewrite Hget. }
  split; [exact Hcall|].
  destruct (mkstemp_returns _ _ _ _ _ Htmp) as (Hfresh & Hfs & Hout & Hticks).
  rewrite (bench_download_failed env _ _ _ _ _ _ _ Htmp Hcall). simpl.
  rewrite Hfs, lookup_insert_eq. unfold removed, set_files. simpl.
  rewrite Hfs, delete_created, Hout, Hticks by assumption. reflexivity.
Qed.

Lemma request_refused_witness :
  bench_download Demo.env_offline Demo.fd_hello (requests_chunks Demo.env_offline)
                 Cases.w_taken
  = Raise (RequestException "connection refused")
      (mkWorld (files Cases.w_taken) [] 1 1).
Proof.
  set (w1 := mkWorld (<[ "/tmp/tmpa"%string := [] ]> (files Cases.w_taken)) [] 0 1).
  assert (Htmp : NamedTemporaryFile Demo.env_offline Cases.w_taken
                 = Return "/tmp/tmpa"%string w1) by (vm_compute; reflexivity).
  exact (proj2 (request_refused Demo.env_offline Demo.fd_hello Cases.w_taken
                  "/tmp/tmpa" w1 (RequestException "connection refused")
                  (requests_chunks Demo.env_offline)
                  (or_intror eq_refl) Htmp eq_refl)).
Defined.

(* ------------------------------------------------------------------- *)

Lemma tool_unfold (env : Env) (tool_name : string)
    (cmdline : string -> string -> list string) (url fname : string) (w : World) :
  wrapper env (mkFunction tool_name
                 (fun url fname => check_call env (cmdline url fname) ;; ret tt)%py)
          url fname w
  = match spawn env (ticked w) (cmdline url fname) with
    | NoSuchCommand =>
        Raise (FileNotFoundError (hd EmptyString (cmdline url fname))) (ticked w)
    | Exited code fs =>
        if code =? 0
        then Return (clock env (Datatypes.S (ticks w)) - clock env (ticks w))%float
                    (mkWorld fs (stdout w) (2 + ticks w) (draws w))
        else Raise (CalledProcessError code (cmdline url fname))
                   (mkWorld fs (stdout w) (1 + ticks w) (draws w))
    end.
Proof.
  rewrite wrapper_unfold. simpl. unfold bind, check_call.
  destruct (spawn env (ticked w) (cmdline url fname)) as [|code fs]; [reflexivity|].
  destruct (code =? 0); reflexivity.
Qed.

(** X4. The tool functions return exactly when the tool exits with
    status 0, and then the file system is the one the tool left and the
    value returned is the difference of the two clock readings; when the
    executable is missing they raise [FileNotFoundError] for its name. *)
Theorem tool_returns_iff_exit_zero (env : Env) (url fname : string) (w : World) :
  let elapsed := (clock env (Datatypes.S (ticks w)) - clock env (ticks w))%float in
  let wget := ["wget"; "-q"; "-O"; fname; url]%string in
  let curl := ["curl"; "-s"; "-o"; fname; url]%string in
  (returns (call (wget_subprocess env) url fname w) = true
   <-> exists fs, spawn env (ticked w) wget = Exited 0 fs)
  /\ (forall fs, spawn env (ticked w) wget = Exited 0 fs ->
        call (wget_subprocess env) url fname w
        = Return elapsed (mkWorld fs (stdout w) (2 + ticks w) (draws w)))
  /\ (spawn env (ticked w) wget = NoSuchCommand ->
        call (wget_subprocess env) url fname w
        = Raise (FileNotFoundError "wget") (ticked w))
  /\ (returns (call (curl_subprocess env) url fname w) = true
      <-> exists fs, spawn env (ticked w) curl = Exited 0 fs)
  /\ (forall fs, spawn env (ticked w) curl = Exited 0 fs ->
        call (curl_subprocess env) url fname w
        = Return elapsed (mkWorld fs (stdout w) (2 + ticks w) (draws w)))
  /\ (spawn env (ticked w) curl = NoSuchCommand ->
        call (curl_subprocess env) url fname w
        = Raise (FileNotFoundError "curl") (ticked w)).
Proof.
  intros elapsed wget curl.
  change (call (wget_subprocess env)) with (wrapper env (wget_subprocess_def env)).
  change (call (curl_subprocess env)) with (wrapper env (curl_subprocess_def env)).
  unfold wget_subprocess_def, curl_subprocess_def.
  rewrite (tool_unfold env "wget_subprocess" (fun url fname => ["wget"; "-q"; "-O"; fname; url]%string)).
  rewrite (tool_unfold env "curl_subprocess" (fun url fname => ["curl"; "-s"; "-o"; fname; url]%string)).
  fold wget curl.
  repeat split.
  - destruct (spawn env (ticked w) wget) as [|code fs]; [discriminate|].
    destruct (code =? 0) eqn:E; [|discriminate].
    apply Z.eqb_eq in E. subst. eauto.
  - intros [fs ->]. reflexivity.
  - intros fs ->. reflexivity.
  - intros ->. reflexivity.
  - destruct (spawn env (ticked w) curl) as [|code fs]; [discriminate|].
    destruct (code =? 0) eqn:E; [|discriminate].
    apply Z.eqb_eq in E. subst. eauto.
  - intros [fs ->]. reflexivity.
  - intros fs ->. reflexivity.
  - intros ->. reflexivity.
Qed.

Lemma tool_returns_iff_exit_zero_witness :
  call (curl_subprocess Cases.env_no_tools) "http://fixture.test/hello.txt"
       "/tmp/out" Demo.w0
  = Raise (FileNotFoundError "curl") (mkWorld ∅ [] 1 0)
  /\ call (wget_subprocess Demo.env_ok) "http://fixture.test/hello.txt"
          "/tmp/out" Demo.w0
     = Return 2%float (mkWorld {[ "/tmp/out"%string := Demo.hello ]} [] 2 0).
Proof.
  destruct (tool_returns_iff_exit_zero Cases.env_no_tools
              "http://fixture.test/hello.txt" "/tmp/out" Demo.w0)
    as (_ & _ & _ & _ & _ & Hcurl).
  destruct (tool_returns_iff_exit_zero Demo.env_ok
              "http://fixture.test/hello.txt" "/tmp/out" Demo.w0)
    as (_ & Hwget & _).
  split; [exact (Hcurl eq_refl)|].
  rewrite (Hwget _ eq_refl). vm_compute. reflexivity.
Defined.

(* ===================================================================== *)
(** ** The temporary file and the file system *)
(* ===================================================================== *)

(** The iteration when the download returns but its file is not there. *)
Lemma bench_download_file_gone (env : Env) (file_desc : FileDesc)
    (download_func : function float) (w : World) (name : string) (w1 : World)
    (t : float) (w2 : World) :
  NamedTemporaryFile env w = Return name w1 ->
  call download_func (fd_url file_desc) name w1 = Return t w2 ->
  files w2 !! name = None ->
  bench_download env file_desc download_func w = Raise (FileNotFoundError name) w2.
Proof.
  intros Htmp Hcall Hgone. rewrite bench_download_unfold, Htmp.
  unfold try_finally, bench_download_body, bind. rewrite Hcall.
  rewrite (calc_md5_missing _ _ Hgone), (unlink_missing _ _ Hgone). reflexivity.
Qed.

(** Every way an iteration can end once the temporary file exists leaves
    the files of the world the download left, minus the temporary file. *)
Lemma bench_download_files (env : Env) (file_desc : FileDesc)
    (download_func : function float) (w : World) (name : string) (w1 : World) :
  NamedTemporaryFile env w = Return name w1 ->
  files (world_of (bench_download env file_desc download_func w))
  = delete name (files (world_of (call download_func (fd_url file_desc) name w1))).
Proof.
  intros Htmp.
  destruct (call download_func (fd_url file_desc) name w1) as [t w2|e w2] eqn:Hcall;
    simpl.
  - destruct (files w2 !! name) as [content|] eqn:Hfile.
    + rewrite (bench_download_after env _ _ _ _ _ _ _ _ Htmp Hcall Hfile).
      destruct (negb _); [|destruct (t =? 0)%float]; reflexivity.
    + rewrite (bench_download_file_gone env _ _ _ _ _ _ _ Htmp Hcall Hfile).
      simpl. now rewrite delete_id.
  - rewrite (bench_download_failed env _ _ _ _ _ _ _ Htmp Hcall).
    destruct (files w2 !! name) eqn:Hfile; simpl; [reflexivity|].
    now rewrite delete_id.
Qed.

(** X5. An iteration with one of the two [requests] functions leaves the
    file system exactly as it found it, however it ends: no temporary
    file could be created, the request failed, the response broke, the
    digest differed, the division failed, or a throughput line was
    printed. *)
Theorem requests_iteration_keeps_files (env : Env) (file_desc : FileDesc) (w : World) :
  files (world_of (bench_download env file_desc (requests_raw_shutil env) w)) = files w
  /\ files (world_of (bench_download env file_desc (requests_chunks env) w)) = files w.
Proof.
  destruct (NamedTemporaryFile env w) as [name w1|e w1] eqn:Htmp.
  - destruct (mkstemp_returns _ _ _ _ _ Htmp) as (Hfresh & Hfs & _).
    rewrite !(bench_download_files env _ _ _ _ _ Htmp).
    rewrite requests_raw_shutil_unfold, requests_chunks_unfold.
    destruct (http_get env (ticked w1) (fd_url file_desc)) as [e|r]; simpl.
    + rewrite Hfs, delete_created by assumption. auto.
    + destruct (broken (raw r (16 * 1024))), (broken (iter_content r (128 * 1024)));
        simpl; rewrite Hfs, !insert_insert_eq, !delete_created by assumption; auto.
  - destruct (mkstemp_raises _ _ _ _ _ Htmp) as (_ & Hfs & _).
    rewrite !bench_download_unfold, Htmp. simpl. auto.
Qed.

Lemma requests_iteration_keeps_files_witness :
  files (world_of (bench_download Cases.env_cut_off Demo.fd_hello
                     (requests_raw_shutil Cases.env_cut_off) Cases.w_taken))
  = files Cases.w_taken
  /\ returns (bench_download Cases.env_cut_off Demo.fd_hello
                (requests_raw_shutil Cases.env_cut_off) Cases.w_taken) = false.
Proof.
  split; [|vm_compute; reflexivity].
  exact (proj1 (requests_iteration_keeps_files Cases.env_cut_off Demo.fd_hello
                  Cases.w_taken)).
Defined.

(** Drawing names when all of the next [n] are taken. *)
Lemma mkstemp_exhausted (env : Env) (n : nat) (w : World) :
  (forall i, (i < n)%nat -> is_Some (files w !! temp_name env (draws w + i)%nat)) ->
  mkstemp env n w
  = Raise FileExistsError (mkWorld (files w) (stdout w) (ticks w) (draws w + n)%nat).
Proof.
  revert w; induction n as [|n IH]; intros w Htaken.
  - simpl. rewrite Nat.add_0_r. now destruct w.
  - destruct (Htaken 0%nat ltac:(lia)) as [c Hc]. rewrite Nat.add_0_r in Hc.
    simpl. rewrite Hc, IH.
    + simpl. rewrite Nat.add_succ_r. reflexivity.
    + intros i Hi. simpl. pose proof (Htaken (Datatypes.S i) ltac:(lia)) as H.
      rewrite Nat.add_succ_r in H. exact H.
Qed.

(** Drawing names when the first free one is the [k]-th. *)
Lemma mkstemp_first_free (env : Env) (n k : nat) (w : World) :
  (k < n)%nat ->
  (forall i, (i < k)%nat -> is_Some (files w !! temp_name env (draws w + i)%nat)) ->
  files w !! temp_name env (draws w + k)%nat = None ->
  mkstemp env n w
  = Return (temp_name env (draws w + k)%nat)
           (mkWorld (<[temp_name env (draws w + k)%nat := []]> (files w))
                    (stdout w) (ticks w) (draws w + Datatypes.S k)%nat).
Proof.
  revert n w; induction k as [|k IH]; intros n w Hk Htaken Hfree;
    (destruct n as [|n]; [lia|]).
  - rewrite Nat.add_0_r in *. simpl. rewrite Hfree. unfold set_files. simpl.
    rewrite Nat.add_1_r. reflexivity.
  - destruct (Htaken 0%nat ltac:(lia)) as [c Hc]. rewrite Nat.add_0_r in Hc.
    simpl. rewrite Hc.
    rewrite (Nat.add_succ_r (draws w) k), (Nat.add_succ_r (draws w) (Datatypes.S k)).
    rewrite Nat.add_succ_r in Hfree.
    rewrite IH.
    + simpl. rewrite Nat.add_succ_r. reflexivity.
    + lia.
    + intros i Hi. simpl. pose proof (Htaken (Datatypes.S i) ltac:(lia)) as H.
      rewrite Nat.add_succ_r in H. exact H.
    + simpl. exact Hfree.
Qed.

(** X6. When each of the next [TMP_MAX] names drawn for the temporary
    file is taken ([TMP_MAX] being the bound of the platform), the
    iteration raises [FileExistsError] before its [try] block: the
    download function is not called (the clock is not read), nothing is
    printed and no file is touched. *)
Theorem no_temporary_name_left (env : Env) (file_desc : FileDesc)
    (download_func : function float) (w : World) :
  (forall i, (i < TMP_MAX env)%nat ->
     is_Some (files w !! temp_name env (draws w + i)%nat)) ->
  bench_download env file_desc download_func w
  = Raise FileExistsError
      (mkWorld (files w) (stdout w) (ticks w) (draws w + TMP_MAX env)%nat).
Proof.
  intros Htaken. rewrite bench_download_unfold. unfold NamedTemporaryFile.
  now rewrite mkstemp_exhausted.
Qed.

(** On Linux, where the bound is 62 * 62 * 62 = 238328, with a temporary
    directory that draws one and the same taken name again and again. *)
Lemma no_temporary_name_left_witness :
  TMP_MAX Cases.env_one_name = (62 * 62 * 62)%nat
  /\ bench_download Cases.env_one_name Demo.fd_hello
                    (wget_subprocess Cases.env_one_name) Cases.w_taken
     = Raise FileExistsError
         (mkWorld (files Cases.w_taken) (stdout Cases.w_taken) (ticks Cases.w_taken)
                  (draws Cases.w_taken + TMP_MAX Cases.env_one_name)%nat).
Proof.
  split; [reflexivity|].
  refine (no_temporary_name_left Cases.env_one_name Demo.fd_hello
            (wget_subprocess Cases.env_one_name) Cases.w_taken _).
  intros i _. exists (Bytes.of_str "old"). vm_compute. reflexivity.
Defined.

(** X7. The temporary file gets the first name drawn that is not taken,
    names that are taken being skipped; it is created empty, and every
    file that existed before is still there with its content. *)
Theorem temporary_file_is_first_free_name (env : Env) (w : World) (k : nat) :
  (k < TMP_MAX env)%nat ->
  (forall i, (i < k)%nat -> is_Some (files w !! temp_name env (draws w + i)%nat)) ->
  files w !! temp_name env (draws w + k)%nat = None ->
  exists w1,
    NamedTemporaryFile env w = Return (temp_name env (draws w + k)%nat) w1
    /\ files w1 !! temp_name env (draws w + k)%nat = Some []
    /\ draws w1 = (draws w + Datatypes.S k)%nat
    /\ forall path content,
         files w !! path = Some content -> files w1 !! path = Some content.
Proof.
  intros Hk Htaken Hfree. eexists. split.
  - unfold NamedTemporaryFile. now apply mkstemp_first_free.
  - simpl. split; [apply lookup_insert_eq|]. split; [reflexivity|].
    intros path content Hpath. rewrite lookup_insert_ne; [assumption|].
    intros <-. congruence.
Qed.

Lemma temporary_file_is_first_free_name_witness :
  exists w1,
    NamedTemporaryFile Cases.env_third_name Cases.w_taken = Return "/tmp/tmpc"%string w1
    /\ files w1 !! "/tmp/tmpc"%string = Some []
    /\ draws w1 = 3%nat
    /\ files w1 !! "/tmp/taken"%string = Some (Bytes.of_str "old").
Proof.
  destruct (temporary_file_is_first_free_name Cases.env_third_name Cases.w_taken 2)
    as (w1 & Htmp & Hnew & Hdraws & Hkept).
  - apply Nat.ltb_lt. vm_compute. reflexivity.
  - intros i Hi. destruct i as [|[|i]]; [vm_compute; eauto | vm_compute; eauto | lia].
  - vm_compute. reflexivity.
  - exists w1. split; [exact Htmp|]. split; [exact Hnew|]. split; [exact Hdraws|].
    apply Hkept. vm_compute. reflexivity.
Defined.

(** X10. When the download function returns although the temporary file
    no longer exists, hashing fails, the removal in the [finally] clause
    fails as well, and the iteration raises [FileNotFoundError] for the
    temporary file without printing a line. *)
Theorem removed_temporary_file_fails_iteration (env : Env) (file_desc : FileDesc)
    (download_func : function float) (w : World) (name : string) (w1 : World)
    (total_time : float) (w2 : World) :
  NamedTemporaryFile env w = Return name w1 ->
  call download_func (fd_url file_desc) name w1 = Return total_time w2 ->
  files w2 !! name = None ->
  calc_md5 name w2 = Raise (FileNotFoundError name) w2
  /\ unlink name w2 = Raise (FileNotFoundError name) w2
  /\ bench_download env file_desc download_func w = Raise (FileNotFoundError name) w2.
Proof.
  intros Htmp Hcall Hgone.
  split; [now apply calc_md5_missing|]. split; [now apply unlink_missing|].
  now apply (bench_download_file_gone env _ _ _ _ _ _ _ Htmp Hcall).
Qed.

Lemma removed_temporary_file_fails_iteration_witness :
  bench_download Cases.env_removing Demo.fd_hello
                 (curl_subprocess Cases.env_removing) Demo.w0
  = Raise (FileNotFoundError "/tmp/tmpa") (mkWorld ∅ [] 2 1).
Proof.
  set (w1 := mkWorld {[ "/tmp/tmpa"%string := [] ]} [] 0 1).
  assert (Htmp : NamedTemporaryFile Cases.env_removing Demo.w0
                 = Return "/tmp/tmpa"%string w1) by (vm_compute; reflexivity).
  assert (Hcall : call (curl_subprocess Cases.env_removing) (fd_url Demo.fd_hello)
                       "/tmp/tmpa" w1 = Return 2%float (mkWorld ∅ [] 2 1))
    by (vm_compute; reflexivity).
  exact (proj2 (proj2 (removed_temporary_file_fails_iteration Cases.env_removing
           Demo.fd_hello (curl_subprocess Cases.env_removing) Demo.w0 _ _ _ _
           Htmp Hcall eq_refl))).
Defined.

(* ===================================================================== *)
(** ** Verification of what was downloaded *)
(* ===================================================================== *)



(** The base64 encoding of sixteen bytes: twenty-two characters and two
    padding signs. *)
Lemma b64encode_16 (s : list byte) :
  length s = 16%nat ->
  exists text, length text = 22%nat
               /\ Base64.b64encode s = text ++ ["="%byte; "="%byte].
Proof.
  intros Hlen.
  do 16 (destruct s as [|? s]; [discriminate|]).
  destruct s; [|discriminate].
  cbn [Base64.b64encode].
  eexists [_; _; _; _; _; _; _; _; _; _; _; _; _; _; _; _; _; _; _; _; _; _].
  split; reflexivity.
Qed.

(** X9. The digest [calc_md5] returns always has twenty-four bytes, the
    last two being padding signs.  A descriptor whose expected digest has
    another length (a hexadecimal MD5, say) therefore never matches: every
    iteration that gets as far as the comparison prints the mismatch
    line. *)
Theorem digest_has_24_bytes (env : Env) (file_desc : FileDesc)
    (download_func : function float) (w : World) (name : string) (w1 : World)
    (total_time : float) (w2 : World) (md5 : list byte) (w3 : World) :
  NamedTemporaryFile env w = Return name w1 ->
  call download_func (fd_url file_desc) name w1 = Return total_time w2 ->
  calc_md5 name w2 = Return md5 w3 ->
  length md5 = 24%nat
  /\ (exists text, md5 = text ++ ["="%byte; "="%byte])
  /\ (length (fd_md5 file_desc) <> 24%nat ->
      bench_download env file_desc download_func w
      = Return tt (removed name
          (printed (mismatch_line (__name__ download_func) file_desc md5) w2))).
Proof.
  intros Htmp Hcall Hmd5.
  apply calc_md5_inv in Hmd5 as (_ & content & Hfile & ->).
  destruct (b64encode_16 (MD5.hash content) (md5_digest_length _))
    as (text & Htext & Henc).
  assert (Hlen : length (digest_of content) = 24%nat).
  { unfold digest_of. rewrite Henc, length_app, Htext. reflexivity. }
  split; [exact Hlen|]. split; [now exists text|].
  intros Hother.
  rewrite (bench_download_after env _ _ _ _ _ _ _ _ Htmp Hcall Hfile).
  assert (Hne : digest_of content <> fd_md5 file_desc) by congruence.
  apply bytes_eqb_neq in Hne. now rewrite Hne.
Qed.

Lemma digest_has_24_bytes_witness :
  bench_download Demo.env_ok Cases.fd_hex (wget_subprocess Demo.env_ok) Demo.w0
  = Return tt (mkWorld ∅
      [mismatch_line "wget_subprocess" Cases.fd_hex
                     (Bytes.of_str "/D/5joxqDTCH1RXARz+Gdw==")] 2 1).
Proof.
  set (w1 := mkWorld {[ "/tmp/tmpa"%string := [] ]} [] 0 1).
  set (w2 := mkWorld {[ "/tmp/tmpa"%string := Demo.hello ]} [] 2 1).
  assert (Htmp : NamedTemporaryFile Demo.env_ok Demo.w0 = Return "/tmp/tmpa"%string w1)
    by (vm_compute; reflexivity).
  assert (Hcall : call (wget_subprocess Demo.env_ok) (fd_url Cases.fd_hex)
                       "/tmp/tmpa" w1 = Return 2%float w2) by (vm_compute; reflexivity).
  assert (Hmd5 : calc_md5 "/tmp/tmpa" w2
                 = Return (Bytes.of_str "/D/5joxqDTCH1RXARz+Gdw==") w2)
    by (vm_compute; reflexivity).
  destruct (digest_has_24_bytes Demo.env_ok Cases.fd_hex (wget_subprocess Demo.env_ok)
              Demo.w0 _ _ _ _ _ _ Htmp Hcall Hmd5) as (_ & _ & Hrun).
  rewrite Hrun; [vm_compute; reflexivity | vm_compute; lia].
Defined.

(** X14. When the download returns and leaves the temporary file empty,
    no block is read and the digest is that of the empty message,
    [1B2M2Y8AsgTpgAmY7PhCfg==]: for every descriptor that expects
    another digest the iteration prints the mismatch line with it, so a
    download of zero bytes is not reported as a success. *)
Theorem empty_download_is_a_mismatch (env : Env) (file_desc : FileDesc)
    (download_func : function float) (w : World) (name : string) (w1 : World)
    (total_time : float) (w2 : World) :
  NamedTemporaryFile env w = Return name w1 ->
  call download_func (fd_url file_desc) name w1 = Return total_time w2 ->
  files w2 !! name = Some [] ->
  let empty_digest := Bytes.of_str "1B2M2Y8AsgTpgAmY7PhCfg==" in
  read_blocks (1024 * 1024) [] = []
  /\ calc_md5 name w2 = Return empty_digest w2
  /\ (fd_md5 file_desc <> empty_digest ->
      bench_download env file_desc download_func w
      = Return tt (removed name
          (printed (mismatch_line (__name__ download_func) file_desc empty_digest)
                   w2))).
Proof.
  intros Htmp Hcall Hfile empty_digest.
  assert (Hd : digest_of [] = empty_digest) by (vm_compute; reflexivity).
  split; [reflexivity|].
  split; [rewrite (calc_md5_found _ _ _ Hfile); now rewrite Hd|].
  intros Hne.
  rewrite (bench_download_after env _ _ _ _ _ _ _ _ Htmp Hcall Hfile), Hd.
  assert (Hne' : empty_digest <> fd_md5 file_desc) by congruence.
  apply bytes_eqb_neq in Hne'. now rewrite Hne'.
Qed.

Lemma empty_download_is_a_mismatch_witness :
  bench_download Demo.env_no_dns Demo.fd_hello
                 (mkFunction "stub" (fun _ _ => ret 1%float)) Demo.w0
  = Return tt (mkWorld ∅
      [mismatch_line "stub" Demo.fd_hello (Bytes.of_str "1B2M2Y8AsgTpgAmY7PhCfg==")]
      0 1).
Proof.
  set (w1 := mkWorld {[ "/tmp/tmpa"%string := [] ]} [] 0 1).
  assert (Htmp : NamedTemporaryFile Demo.env_no_dns Demo.w0
                 = Return "/tmp/tmpa"%string w1) by (vm_compute; reflexivity).
  destruct (empty_download_is_a_mismatch Demo.env_no_dns Demo.fd_hello
              (mkFunction "stub" (fun _ _ => ret 1%float)) Demo.w0 _ _ 1%float w1
              Htmp eq_refl eq_refl) as (_ & _ & Hrun).
  rewrite Hrun; [vm_compute; reflexivity | vm_compute; discriminate].
Defined.

(* ===================================================================== *)
(** ** What a run prints *)
(* ===================================================================== *)

Lemma requests_raw_shutil_quiet (env : Env) : quiet (requests_raw_shutil env).
Proof.
  intros url fname w. rewrite requests_raw_shutil_unfold.
  destruct (http_get env (ticked w) url) as [e|r]; [reflexivity|].
  destruct (broken (raw r (16 * 1024))); reflexivity.
Qed.

Lemma requests_chunks_quiet (env : Env) : quiet (requests_chunks env).
Proof.
  intros url fname w. rewrite requests_chunks_unfold.
  destruct (http_get env (ticked w) url) as [e|r]; [reflexivity|].
  destruct (broken (iter_content r (128 * 1024))); reflexivity.
Qed.

Lemma tool_quiet (env : Env) (tool_name : string)
    (cmdline : string -> string -> list string) :
  quiet (mkFunction tool_name
           (wrapper env (mkFunction tool_name
              (fun url fname => check_call env (cmdline url fname) ;; ret tt)%py))).
Proof.
  intros url fname w. simpl. rewrite tool_unfold.
  destruct (spawn env (ticked w) (cmdline url fname)) as [|code fs]; [reflexivity|].
  destruct (code =? 0); reflexivity.
Qed.

Lemma registered_functions_quiet (env : Env) : Forall quiet (DOWNLOAD_FUNCTIONS env).
Proof.
  repeat constructor.
  - apply requests_raw_shutil_quiet.
  - apply requests_chunks_quiet.
  - apply (tool_quiet env "wget_subprocess"
             (fun url fname => ["wget"; "-q"; "-O"; fname; url]%string)).
  - apply (tool_quiet env "curl_subprocess"
             (fun url fname => ["curl"; "-s"; "-o"; fname; url]%string)).
Qed.

(** With a function that prints nothing, an iteration that returns has
    printed exactly one line, and one that raises has printed none. *)
Lemma bench_download_lines (env : Env) (file_desc : FileDesc)
    (download_func : function float) (w : World) :
  quiet download_func ->
  match bench_download env file_desc download_func w with
  | Return _ w' =>
      exists line, stdout w' = stdout w ++ [line]
                   /\ line_of env (file_desc, download_func) line
  | Raise _ w' => stdout w' = stdout w
  end.
Proof.
  intros Hquiet.
  destruct (NamedTemporaryFile env w) as [name w1|e w1] eqn:Htmp.
  - destruct (mkstemp_returns _ _ _ _ _ Htmp) as (_ & _ & Hout & _).
    pose proof (Hquiet (fd_url file_desc) name w1) as Hq.
    destruct (call download_func (fd_url file_desc) name w1) as [t w2|e w2] eqn:Hcall;
      simpl in Hq.
    + destruct (files w2 !! name) as [content|] eqn:Hfile.
      * rewrite (bench_download_after env _ _ _ _ _ _ _ _ Htmp Hcall Hfile).
        destruct (negb _); [|destruct (t =? 0)%float]; simpl.
        -- eexists. split; [now rewrite Hq, Hout|]. left. eauto.
        -- now rewrite Hq.
        -- eexists. split; [now rewrite Hq, Hout|]. right. eauto.
      * rewrite (bench_download_file_gone env _ _ _ _ _ _ _ Htmp Hcall Hfile).
        now rewrite Hq.
    + rewrite (bench_download_failed env _ _ _ _ _ _ _ Htmp Hcall).
      destruct (files w2 !! name); simpl; now rewrite Hq.
  - destruct (mkstemp_raises _ _ _ _ _ Htmp) as (_ & _ & Hout).
    now rewrite bench_download_unfold, Htmp.
Qed.

Lemma list_map_cons_inv {A B} (fn : A -> Py B) (x : A) (xs : list A) (w : World)
    (bs : list B) (w' : World) :
  list_map fn (x :: xs) w = Return bs w' ->
  exists b w1 bs', fn x w = Return b w1
                   /\ list_map fn xs w1 = Return bs' w' /\ bs = b :: bs'.
Proof.
  simpl. unfold bind, ret. destruct (fn x w) as [b w1|e w1] eqn:Hx; [|discriminate].
  destruct (list_map fn xs w1) as [bs' w2|e w2] eqn:Hxs; [|discriminate].
  intros [= <- <-]. exists b, w1, bs'. auto.
Qed.

(** A pass that returns has printed one line per pair, in order. *)
Lemma list_map_lines (env : Env) (pairs : list (FileDesc * function float))
    (w : World) (bs : list unit) (w' : World) :
  Forall (fun args => quiet args.2) pairs ->
  list_map (bench_pair env) pairs w = Return bs w' ->
  exists lines, stdout w' = stdout w ++ lines /\ Forall2 (line_of env) pairs lines.
Proof.
  intros Hquiet; revert w bs; induction Hquiet as [|[file_desc f] pairs Hf _ IH];
    intros w bs Hrun.
  - injection Hrun as _ <-. exists []. split; [now rewrite app_nil_r | constructor].
  - apply list_map_cons_inv in Hrun as (b & w1 & bs' & Hhead & Htail & _).
    pose proof (bench_download_lines env file_desc f w Hf) as Hline.
    change (bench_pair env (file_desc, f) w) with (bench_download env file_desc f w)
      in Hhead.
    rewrite Hhead in Hline. destruct Hline as (line & Hout & Hline).
    destruct (IH _ _ Htail) as (lines & Hout' & Hlines).
    exists (line :: lines). split; [|now constructor].
    rewrite Hout', Hout, <- app_assoc. reflexivity.
Qed.

Lemma product_quiet (files_ : list FileDesc) (funcs : list (function float)) :
  Forall quiet funcs ->
  Forall (fun args : FileDesc * function float => quiet args.2) (product files_ funcs).
Proof.
  intros Hquiet. induction files_ as [|file_desc files_ IH]; [constructor|].
  change (product (file_desc :: files_) funcs)
    with (map (fun f => (file_desc, f)) funcs ++ product files_ funcs).
  apply Forall_app. split; [|exact IH].
  apply Forall_map. exact Hquiet.
Qed.

(** X11. A run that returns has printed the first header, one line for
    each of the twelve pairs in the order of the cross product (each the
    mismatch line or the throughput line of its pair), the second header,
    and once more one line for each of the twelve pairs in that order;
    nothing else. *)
Theorem run_prints_one_line_per_pair (env : Env) (w w' : World) :
  run_download_bench env w = Return tt w' ->
  exists lines1 lines2 : list string,
    stdout w' = stdout w ++ header_main :: lines1 ++ header_pool :: lines2
    /\ Forall2 (line_of env) (product FILES (DOWNLOAD_FUNCTIONS env)) lines1
    /\ Forall2 (line_of env) (product FILES (DOWNLOAD_FUNCTIONS env)) lines2
    /\ length lines1 = 12%nat /\ length lines2 = 12%nat.
Proof.
  intros Hrun. unfold run_download_bench in Hrun.
  rewrite run_download_bench_on_unfold in Hrun.
  pose proof (product_quiet FILES _ (registered_functions_quiet env)) as Hquiet.
  set (pairs := product FILES (DOWNLOAD_FUNCTIONS env)) in *.
  destruct (list_map (bench_pair env) pairs (printed header_main w))
    as [bs1 w1|e w1] eqn:Hpass1; [|discriminate].
  pose proof (executor_map_list_map env (bench_pair env) pairs
                (printed header_pool w1)) as Hpool.
  destruct (list_map (bench_pair env) pairs (printed header_pool w1))
    as [bs2 w2|e w2] eqn:Hpass2.
  - rewrite Hpool in Hrun. injection Hrun as <-.
    destruct (list_map_lines env _ _ _ _ Hquiet Hpass1) as (lines1 & Hout1 & Hl1).
    destruct (list_map_lines env _ _ _ _ Hquiet Hpass2) as (lines2 & Hout2 & Hl2).
    exists lines1, lines2. split.
    + rewrite Hout2. simpl. rewrite Hout1. simpl.
      rewrite <- !app_assoc. reflexivity.
    + split; [exact Hl1|]. split; [exact Hl2|].
      split; [rewrite <- (Forall2_length _ _ _ Hl1) | rewrite <- (Forall2_length _ _ _ Hl2)];
        unfold pairs; rewrite product_length; reflexivity.
  - destruct Hpool as [w4 Hpool]. rewrite Hpool in Hrun. discriminate.
Qed.

Lemma run_prints_one_line_per_pair_witness :
  exists lines1 lines2 : list string,
    stdout (world_of (run_download_bench Demo.env_ok Demo.w0))
    = header_main :: lines1 ++ header_pool :: lines2
    /\ length lines1 = 12%nat /\ length lines2 = 12%nat.
Proof.
  destruct (run_prints_one_line_per_pair Demo.env_ok Demo.w0
              (world_of (run_download_bench Demo.env_ok Demo.w0)))
    as (lines1 & lines2 & Hout & _ & _ & Hl1 & Hl2); [vm_compute; reflexivity|].
  exists lines1, lines2. split; [exact Hout|]. split; assumption.
Defined.

(* ===================================================================== *)
(** ** The layout of the lines *)
(* ===================================================================== *)

Lemma string_length_app (a b : string) :
  String.length (a +:+ b) = (String.length a + String.length b)%nat.
Proof.
  induction a as [|x a IH]; [reflexivity|].
  change (Datatypes.S (String.length (a +:+ b))
          = Datatypes.S (String.length a + String.length b)).
  now rewrite IH.
Qed.

Lemma spaces_length (n : nat) : String.length (Str.spaces n) = n.
Proof.
  unfold Str.spaces. induction n as [|n IH]; [reflexivity|].
  change (Datatypes.S (String.length (string_of_list_byte (repeat " "%byte n)))
          = Datatypes.S n).
  now rewrite IH.
Qed.

Lemma ljust_length (width : nat) (s : string) :
  String.length (Str.ljust width s) = Nat.max width (String.length s).
Proof. unfold Str.ljust. rewrite string_length_app, spaces_length. lia. Qed.

Lemma rjust_length (width : nat) (s : string) :
  String.length (Str.rjust width s) = Nat.max width (String.length s).
Proof. unfold Str.rjust. rewrite string_length_app, spaces_length. lia. Qed.

(** X12. The throughput line starts with the name of the function,
    never cut short, and every field is padded to its width and never
    truncated: the line is as long as the four fields (at least 22, 6, 10
    and 10 columns) and the two literals " sec" and "/s" together, so it
    has 54 columns exactly when every field fits its width, and the
    columns of all such lines are aligned. *)
Theorem throughput_line_layout (env : Env) (func_name : string)
    (total_time : float) (total_bytes : Z) (speed : float) :
  let line := throughput_line env func_name total_time total_bytes speed in
  let time_field := format_2f env total_time in
  let size_field := naturalsize env (float_of_int total_bytes) in
  let speed_field := naturalsize env speed in
  (exists rest, line = (func_name +:+ rest)%string)
  /\ String.length line
     = (Nat.max 22 (String.length func_name)
        + Nat.max 6 (String.length time_field) + 4
        + Nat.max 10 (String.length size_field)
        + Nat.max 10 (String.length speed_field) + 2)%nat
  /\ ((String.length func_name <= 22)%nat ->
      (String.length time_field <= 6)%nat ->
      (String.length size_field <= 10)%nat ->
      (String.length speed_field <= 10)%nat ->
      String.length line = 54%nat).
Proof.
  intros line time_field size_field speed_field.
  assert (Hlen : String.length line
     = (Nat.max 22 (String.length func_name)
        + Nat.max 6 (String.length time_field) + 4
        + Nat.max 10 (String.length size_field)
        + Nat.max 10 (String.length speed_field) + 2)%nat).
  { unfold line, throughput_line.
    rewrite !string_length_app, ljust_length, !rjust_length.
    fold time_field size_field speed_field.
    change (String.length " sec") with 4%nat.
    change (String.length "/s") with 2%nat. lia. }
  split; [|split; [exact Hlen|]].
  - unfold line, throughput_line, Str.ljust. rewrite string_app_assoc. eauto.
  - intros H1 H2 H3 H4. rewrite Hlen. lia.
Qed.

Lemma throughput_line_layout_witness :
  String.length (throughput_line Demo.env_ok "requests_raw_shutil" 2 12 6) = 54%nat.
Proof.
  apply (proj2 (proj2 (throughput_line_layout Demo.env_ok "requests_raw_shutil"
                          2 12 6)));
    vm_compute; lia.
Defined.

Lemma alphabet_sign (i : nat) :
  (i < 64)%nat -> base64_sign (nth i Base64.alphabet x00) = true.
Proof.
  intros Hi. do 64 (destruct i as [|i]; [reflexivity|]). lia.
Qed.

Lemma sextet_sign (n : Z) : base64_sign (Base64.sextet n) = true.
Proof.
  unfold Base64.sextet. apply alphabet_sign.
  pose proof (Z.mod_pos_bound n 64 ltac:(lia)). lia.
Qed.

Lemma b64encode_signs (s : list byte) :
  forallb base64_sign (Base64.b64encode s) = true.
Proof.
  assert (H : forall n s, (length s <= n)%nat ->
                          forallb base64_sign (Base64.b64encode s) = true).
  { clear s. induction n as [|n IH]; intros s Hlen.
    - destruct s; [reflexivity | simpl in Hlen; lia].
    - destruct s as [|a [|b [|c rest]]]; cbn [Base64.b64encode forallb].
      + reflexivity.
      + now rewrite !sextet_sign.
      + now rewrite !sextet_sign.
      + rewrite !sextet_sign. simpl. apply IH. simpl in Hlen. lia. }
  now apply (H (length s)).
Qed.

(** A base64 sign is printed as it is, and is not a quote. *)
Lemma sign_repr (c : byte) :
  base64_sign c = true ->
  Bytes.repr_byte "'"%byte c = [c] /\ Byte.eqb "'"%byte c = false.
Proof. destruct c; intros H; try discriminate H; split; reflexivity. Qed.

Lemma signs_repr (s : list byte) :
  forallb base64_sign s = true ->
  flat_map (Bytes.repr_byte "'"%byte) s = s /\ Bytes.contains "'"%byte s = false.
Proof.
  induction s as [|c s IH]; [now split|].
  cbn [forallb]. intros [Hc Hs]%andb_true_iff.
  destruct (sign_repr c Hc) as (Hr & Hq). destruct (IH Hs) as (IHr & IHq).
  split.
  - cbn [flat_map]. now rewrite Hr, IHr.
  - unfold Bytes.contains in *. cbn [existsb]. now rewrite Hq, IHq.
Qed.

Lemma string_of_list_byte_app (a b : list byte) :
  string_of_list_byte (a ++ b)
  = (string_of_list_byte a +:+ string_of_list_byte b)%string.
Proof.
  induction a as [|x a IH]; [reflexivity|].
  change (String (ascii_of_byte x) (string_of_list_byte (a ++ b))
          = String (ascii_of_byte x)
                   (string_of_list_byte a +:+ string_of_list_byte b)%string).
  now rewrite IH.
Qed.

(** X13. The digest [calc_md5] returns consists of base64 signs only, so
    the mismatch line shows it verbatim: as [b'], the digest text, and a
    closing quote, with no escape sequence. *)
Theorem digest_is_printed_verbatim (fname : string) (w : World)
    (md5 : list byte) (w' : World) :
  calc_md5 fname w = Return md5 w' ->
  forallb base64_sign md5 = true
  /\ Bytes.repr md5 = ("b'" +:+ string_of_list_byte md5 +:+ "'")%string
  /\ forall func_name file_desc,
       Str.occurs_in ("b'" +:+ string_of_list_byte md5 +:+ "'")%string
                     (mismatch_line func_name file_desc md5).
Proof.
  intros Hmd5. apply calc_md5_inv in Hmd5 as (_ & content & _ & ->).
  pose proof (b64encode_signs (MD5.hash content)) as Hsigns.
  fold (digest_of content) in Hsigns.
  destruct (signs_repr _ Hsigns) as (Hflat & Hquote).
  assert (Hrepr : Bytes.repr (digest_of content)
            = ("b'" +:+ string_of_list_byte (digest_of content) +:+ "'")%string).
  { unfold Bytes.repr. rewrite Hquote. cbn [andb]. cbv beta iota zeta. rewrite Hflat.
    change (string_of_list_byte ("b"%byte :: "'"%byte :: digest_of content ++ ["'"%byte]))
      with (String "b" (String "'" (string_of_list_byte (digest_of content ++ ["'"%byte])))).
    rewrite string_of_list_byte_app. reflexivity. }
  split; [exact Hsigns|]. split; [exact Hrepr|].
  intros func_name file_desc. unfold mismatch_line. rewrite Hrepr.
  repeat first [apply occurs_in_head | apply occurs_in_tail].
Qed.

Lemma digest_is_printed_verbatim_witness :
  Bytes.repr (Bytes.of_str "/D/5joxqDTCH1RXARz+Gdw==")
  = "b'/D/5joxqDTCH1RXARz+Gdw=='"%string.
Proof.
  assert (Hmd5 : calc_md5 "/data/hello.txt" Demo.w_hello
                 = Return (Bytes.of_str "/D/5joxqDTCH1RXARz+Gdw==") Demo.w_hello)
    by (vm_compute; reflexivity).
  rewrite (proj1 (proj2 (digest_is_printed_verbatim _ _ _ _ Hmd5))).
  vm_compute. reflexivity.
Defined.

(* ===================================================================== *)
(** ** Failed runs and clocks set back *)
(* ===================================================================== *)

(** X15. When a pair of the direct pass raises, the run ends in that
    exception having printed the first header and exactly one line for
    each pair before the failing one, in order, and nothing for the
    failing pair or any later one: the output shows how far the run
    came. *)
Theorem failed_run_shows_earlier_pairs (env : Env) (w : World)
    (done rest : list (FileDesc * function float))
    (file_desc : FileDesc) (download_func : function float)
    (bs : list unit) (w1 : World) (e : exn) (w2 : World) :
  product FILES (DOWNLOAD_FUNCTIONS env) = done ++ (file_desc, download_func) :: rest ->
  list_map (bench_pair env) done (printed header_main w) = Return bs w1 ->
  bench_download env file_desc download_func w1 = Raise e w2 ->
  run_download_bench env w = Raise e w2
  /\ exists lines,
       stdout w2 = stdout w ++ header_main :: lines
       /\ Forall2 (line_of env) done lines.
Proof.
  intros Hpairs Hdone Hfail.
  pose proof (product_quiet FILES _ (registered_functions_quiet env)) as Hquiet.
  rewrite Hpairs in Hquiet. apply Forall_app in Hquiet as (Hqdone & Hqrest).
  apply Forall_cons in Hqrest as (Hqf & _). simpl in Hqf.
  split.
  - unfold run_download_bench.
    rewrite run_download_bench_on_unfold, Hpairs, list_map_app, Hdone.
    rewrite (list_map_cons_raise (bench_pair env) (file_desc, download_func) rest
               w1 e w2 Hfail).
    reflexivity.
  - destruct (list_map_lines env _ _ _ _ Hqdone Hdone) as (lines & Hout & Hlines).
    exists lines. split; [|exact Hlines].
    pose proof (bench_download_lines env file_desc download_func w1 Hqf) as Hline.
    rewrite Hfail in Hline. rewrite Hline, Hout. simpl.
    rewrite <- app_assoc. reflexivity.
Qed.

Lemma failed_run_shows_earlier_pairs_witness :
  let env := Demo.env_no_dns in
  let file_desc := hd Demo.fd_hello FILES in
  let lines :=
    [ mismatch_line "requests_raw_shutil" file_desc (fd_md5 Demo.fd_hello);
      mismatch_line "requests_chunks" file_desc (fd_md5 Demo.fd_hello) ] in
  run_download_bench env Demo.w0
  = Raise (CalledProcessError 4
             ["wget"; "-q"; "-O"; "/tmp/tmpc"; fd_url file_desc]%string)
          (mkWorld ∅ (header_main :: lines) 5 3).
Proof.
  intros env file_desc lines.
  set (pairs := product FILES (DOWNLOAD_FUNCTIONS env)).
  set (w1 := mkWorld ∅ (header_main :: lines) 4 2).
  set (w2 := mkWorld ∅ (header_main :: lines) 5 3).
  set (e := CalledProcessError 4
              ["wget"; "-q"; "-O"; "/tmp/tmpc"; fd_url file_desc]%string).
  assert (Hpairs : pairs = take 2 pairs ++ (file_desc, wget_subprocess env) :: drop 3 pairs)
    by reflexivity.
  assert (Hdone : list_map (bench_pair env) (take 2 pairs) (printed header_main Demo.w0)
                  = Return [tt; tt] w1) by (vm_compute; reflexivity).
  assert (Hfail : bench_download env file_desc (wget_subprocess env) w1 = Raise e w2)
    by (vm_compute; reflexivity).
  exact (proj1 (failed_run_shows_earlier_pairs env Demo.w0 _ _ _ _ _ _ _ _
                  Hpairs Hdone Hfail)).
Defined.

(** X16. Nothing checks that the clock went forward.  When the second
    reading of a decorated function is smaller than the first (the clock
    was set back during the download) and the digest matches, the
    iteration divides by the negative difference and prints the
    throughput line computed from it. *)
Theorem clock_set_back_is_not_noticed {R : Type} (env : Env)
    (registry : list (function float)) (download_func : function R)
    (file_desc : FileDesc) (w : World) (name : string) (w1 : World)
    (start : float) (w1' : World) (r : R) (w2 : World)
    (end_ : float) (w2' : World) (content : list byte) :
  NamedTemporaryFile env w = Return name w1 ->
  time env w1 = Return start w1' ->
  call download_func (fd_url file_desc) name w1' = Return r w2 ->
  time env w2 = Return end_ w2' ->
  files w2' !! name = Some content ->
  digest_of content = fd_md5 file_desc ->
  (end_ - start <? 0)%float = true ->
  let total_bytes := Z.of_nat (length content) in
  bench_download env file_desc (bench env registry download_func).1 w
  = Return tt (removed name
      (printed (throughput_line env (__name__ download_func) (end_ - start)
                  total_bytes (float_of_int total_bytes / (end_ - start))%float)
               w2')).
Proof.
  intros Htmp Hstart Hcall Hend Hfile Hmd5 Hneg total_bytes.
  pose proof (wrapper_timed env download_func _ _ _ _ _ _ _ _ _ Hstart Hcall Hend) as Hw.
  rewrite (bench_download_after env file_desc (bench env registry download_func).1
             _ _ _ _ _ _ Htmp Hw Hfile).
  apply bytes_eqb_eq in Hmd5. rewrite Hmd5. simpl.
  now rewrite (float_neg_nonzero _ Hneg).
Qed.

Lemma clock_set_back_is_not_noticed_witness :
  let env := Cases.env_backwards in
  (float_of_int 12 / (Cases.backwards 1 - Cases.backwards 0) = -6)%float
  /\ bench_download env Demo.fd_hello (bench env [] (wget_subprocess_def env)).1 Demo.w0
     = Return tt (mkWorld ∅ [throughput_line env "wget_subprocess" (-2) 12 (-6)] 2 1).
Proof.
  intros env. split; [reflexivity|].
  set (w1 := mkWorld {[ "/tmp/tmpa"%string := [] ]} [] 0 1).
  set (w2 := mkWorld {[ "/tmp/tmpa"%string := Demo.hello ]} [] 1 1).
  assert (Htmp : NamedTemporaryFile env Demo.w0 = Return "/tmp/tmpa"%string w1)
    by (vm_compute; reflexivity).
  assert (Hcall : call (wget_subprocess_def env) (fd_url Demo.fd_hello) "/tmp/tmpa"
                       (ticked w1) = Return tt w2) by (vm_compute; reflexivity).
  rewrite (clock_set_back_is_not_noticed env [] (wget_subprocess_def env) Demo.fd_hello
             Demo.w0 "/tmp/tmpa" w1 (Cases.backwards 0) (ticked w1) tt w2
             (Cases.backwards 1) (ticked w2) Demo.hello
             Htmp eq_refl Hcall eq_refl eq_refl eq_refl eq_refl).
  vm_compute. reflexivity.
Defined.
